(** * Outcomes analytics engine of the recovery-tracking application

    A shallow embedding of [src/lib/analytics.ts]: the five metrics computed
    from a patient's ODI assessment series and VAS pain series, the
    orchestration [calculateAnalytics] over the storage backend, and the
    population benchmark lookup [getBenchmarkComparison].

    Modelling conventions.
    - A JavaScript [number] is modelled with exact arithmetic: finite values
      are rationals ([Q]) or, after [Math.sqrt], reals ([R]); rounding of
      IEEE doubles is not modelled.  The special values that a division by
      zero creates ([Infinity], [-Infinity], [NaN]) are modelled explicitly.
    - [assessment_date] and [recorded_date] are columns of SQL type [date];
      a value is the number of days since 1970-01-01 and [new Date(s).getTime()]
      of such a date-only string is that number of days in milliseconds.
    - The storage backend is an explicit [World]: its tables, the console and
      the outcome (success, error result, rejection) of every request. *)

From Stdlib Require Import String ZArith QArith Qabs Qround List Bool Sorted Lia Lqa.
From Stdlib Require Import DecimalString Permutation.
From Stdlib Require Import Reals Qreals Lra.
Import ListNotations.

Set Implicit Arguments.

(** ** JavaScript numbers *)

(** The value of a numeric expression: a finite value of the carrier [A], or
    one of the IEEE special values. *)
Inductive number (A : Type) : Type :=
| Fin (x : A)
| PosInfinity
| NegInfinity
| NaN.

Arguments PosInfinity {A}.
Arguments NegInfinity {A}.
Arguments NaN {A}.

(** What the arithmetic of [number] needs from its carrier. *)
Class Carrier (A : Type) : Type := {
  c_zero : A;
  c_eqb : A -> A -> bool;
  c_ltb : A -> A -> bool;
  c_mul : A -> A -> A;
  c_div : A -> A -> A
}.

#[global] Instance Q_Carrier : Carrier Q := {|
  c_zero := 0%Q;
  c_eqb := Qeq_bool;
  c_ltb := fun a b => negb (Qle_bool b a);
  c_mul := Qmult;
  c_div := Qdiv
|}.

#[global] Instance R_Carrier : Carrier R := {|
  c_zero := 0%R;
  c_eqb := fun a b => if Req_EM_T a b then true else false;
  c_ltb := fun a b => if Rlt_dec a b then true else false;
  c_mul := Rmult;
  c_div := Rdiv
|}.

Section Number.
Context {A : Type} `{Carrier A}.

(** The sign of an infinite or finite operand, [None] for zero and NaN. *)
Definition is_negative (a : number A) : option bool :=
  match a with
  | Fin x => if c_eqb x c_zero then None else Some (c_ltb x c_zero)
  | PosInfinity => Some false
  | NegInfinity => Some true
  | NaN => None
  end.

Definition signed_infinity (negative : bool) : number A :=
  if negative then NegInfinity else PosInfinity.

(** [a / b].  A finite zero divisor is the positive zero, as every zero
    divisor of the analytics code is (a difference of equal values). *)
Definition js_div (a b : number A) : number A :=
  match a, b with
  | NaN, _ | _, NaN => NaN
  | Fin x, Fin y =>
      if c_eqb y c_zero then
        match is_negative a with
        | Some negative => signed_infinity negative
        | None => NaN
        end
      else Fin (c_div x y)
  | Fin _, _ => Fin c_zero
  | _, Fin y =>
      match is_negative a with
      | Some negative => signed_infinity (xorb negative (c_ltb y c_zero))
      | None => NaN
      end
  | _, _ => NaN
  end.

(** [a * b]. *)
Definition js_mul (a b : number A) : number A :=
  match a, b with
  | NaN, _ | _, NaN => NaN
  | Fin x, Fin y => Fin (c_mul x y)
  | _, _ =>
      match is_negative a, is_negative b with
      | Some na, Some nb => signed_infinity (xorb na nb)
      | _, _ => NaN
      end
  end.

(** [a === 0]. *)
Definition strict_eq_zero (a : number A) : bool :=
  match a with
  | Fin x => c_eqb x c_zero
  | _ => false
  end.

Definition is_finite (a : number A) : bool :=
  match a with
  | Fin _ => true
  | _ => false
  end.
End Number.

(** [Math.sqrt]: NaN below zero. *)
Definition Math_sqrt (x : Q) : number R :=
  if Qle_bool 0 x then Fin (sqrt (Q2R x)) else NaN.

(** [Math.ceil(a / b)] and [Math.floor(a / b)] for integers [a] and [b > 0]. *)
Definition Math_ceil_div (a b : Z) : Z := (- ((- a) / b))%Z.
Definition Math_floor_div (a b : Z) : Z := (a / b)%Z.

(** ** Data model *)

(** A value of a [date] column: days since 1970-01-01. *)
Definition date := Z.

Definition msPerDay : Z := 1000 * 60 * 60 * 24.
Definition msPerWeek : Z := 1000 * 60 * 60 * 24 * 7.

(** [new Date(d).getTime()] of a date-only value: midnight UTC of that day. *)
Definition getTime (d : date) : Z := (d * msPerDay)%Z.

Record ODIAssessment : Type := {
  id : string;
  assessment_date : date;
  percentage_score : Q;
  is_baseline : option bool
}.

Record VASScore : Type := {
  recorded_date : date;
  pain_score : Z
}.

Record AnalyticsResult : Type := {
  timeToMCID : option Z;
  trajectorySlope : option (number Q);
  painFunctionCorrelation : option (number R);
  weeksSinceBaseline : Z;
  plateauDetected : bool
}.

Definition ODI_MCID_THRESHOLD : Q := 10.

(** Truthiness of the optional flag [a.is_baseline]. *)
Definition truthy (flag : option bool) : bool :=
  match flag with
  | Some true => true
  | _ => false
  end.

Definition flagged (a : ODIAssessment) : bool := truthy (is_baseline a).

(** [assessments.find(a => a.is_baseline) || assessments[0]]; [None] is the
    [undefined] of an empty array. *)
Definition find_baseline (assessments : list ODIAssessment) : option ODIAssessment :=
  match find flagged assessments with
  | Some b => Some b
  | None => nth_error assessments 0
  end.

(** [Array.prototype.slice(-k)]. *)
Definition slice_last {A : Type} (k : nat) (l : list A) : list A :=
  skipn (length l - k) l.

(** ** calculateTimeToMCID *)

Definition improvement (baseline assessment : ODIAssessment) : Q :=
  percentage_score baseline - percentage_score assessment.

(** The [for ... of] loop with its early return. *)
Fixpoint scan_for_MCID (baseline : ODIAssessment) (assessments : list ODIAssessment)
  : option Z :=
  match assessments with
  | [] => None
  | assessment :: rest =>
      if Qle_bool ODI_MCID_THRESHOLD (improvement baseline assessment) then
        let baselineDate := getTime (assessment_date baseline) in
        let achievementDate := getTime (assessment_date assessment) in
        let diffTime := (achievementDate - baselineDate)%Z in
        let diffDays := Math_ceil_div diffTime msPerDay in
        Some diffDays
      else scan_for_MCID baseline rest
  end.

Definition calculateTimeToMCID (assessments : list ODIAssessment) : option Z :=
  if (length assessments <? 2)%nat then None
  else
    match find_baseline assessments with
    | Some baseline => scan_for_MCID baseline assessments
    | None => None
    end.

(** ** calculateTrajectorySlope *)

Record RegressionSums : Type := {
  sumX : Q;
  sumY : Q;
  sumXY : Q;
  sumXX : Q
}.

(** The [forEach((assessment, index) => ...)] accumulation. *)
Fixpoint regression_sums (index : nat) (recentAssessments : list ODIAssessment)
  (s : RegressionSums) : RegressionSums :=
  match recentAssessments with
  | [] => s
  | assessment :: rest =>
      let x := inject_Z (Z.of_nat index) in
      let y := percentage_score assessment in
      regression_sums (S index) rest
        {| sumX := sumX s + x;
           sumY := sumY s + y;
           sumXY := sumXY s + x * y;
           sumXX := sumXX s + x * x |}
  end.

Definition calculateTrajectorySlope (assessments : list ODIAssessment)
  : option (number Q) :=
  if (length assessments <? 2)%nat then None
  else
    let recentAssessments := slice_last 4 assessments in
    if (length recentAssessments <? 2)%nat then None
    else
      let n := inject_Z (Z.of_nat (length recentAssessments)) in
      let s := regression_sums 0 recentAssessments
                 {| sumX := 0; sumY := 0; sumXY := 0; sumXX := 0 |} in
      let slope := js_div (Fin (n * sumXY s - sumX s * sumY s))
                          (Fin (n * sumXX s - sumX s * sumX s)) in
      match nth_error recentAssessments 0,
            nth_error recentAssessments (length recentAssessments - 1) with
      | Some first, Some last =>
          let firstDate := getTime (assessment_date first) in
          let lastDate := getTime (assessment_date last) in
          let daysDiff := inject_Z (lastDate - firstDate) / inject_Z msPerDay in
          let weeksDiff := daysDiff / 7 in
          let slopePerWeek := js_div (js_mul slope (Fin (n - 1))) (Fin weeksDiff) in
          Some slopePerWeek
      | _, _ => None
      end.

(** ** calculatePainFunctionCorrelation *)

(** The callback of [vasScores.reduce]. *)
Definition closer (odiDate : Z) (closest vas : VASScore) : VASScore :=
  let vasDate := getTime (recorded_date vas) in
  let currentDiff := Z.abs (vasDate - odiDate) in
  let closestDiff := Z.abs (getTime (recorded_date closest) - odiDate) in
  if (currentDiff <? closestDiff)%Z then vas else closest.

(** [Array.prototype.reduce] without an initial value; [None] is the
    TypeError on an empty array. *)
Definition reduce {A : Type} (f : A -> A -> A) (l : list A) : option A :=
  match l with
  | [] => None
  | x :: rest => Some (fold_left f rest x)
  end.

Record MatchedPair : Type := {
  odi : Q;
  vas : Q
}.

(** The gap, in days, between an assessment and a pain reading. *)
Definition gap_days (o : ODIAssessment) (v : VASScore) : Q :=
  Qabs (inject_Z (getTime (recorded_date v) - getTime (assessment_date o))
        / inject_Z msPerDay).

(** The [for ... of] loop that fills [matchedPairs]. *)
Fixpoint match_pairs (odiAssessments : list ODIAssessment) (vasScores : list VASScore)
  : list MatchedPair :=
  match odiAssessments with
  | [] => []
  | o :: rest =>
      let odiDate := getTime (assessment_date o) in
      match reduce (closer odiDate) vasScores with
      | Some closestVAS =>
          let daysDiff := gap_days o closestVAS in
          if Qle_bool daysDiff 3 then
            {| odi := percentage_score o;
               vas := inject_Z (pain_score closestVAS * 10) |}
              :: match_pairs rest vasScores
          else match_pairs rest vasScores
      | None => []
      end
  end.

Record CorrelationSums : Type := {
  cX : Q;
  cY : Q;
  cXY : Q;
  cXX : Q;
  cYY : Q
}.

(** The callback of [matchedPairs.forEach]. *)
Definition add_pair (s : CorrelationSums) (p : MatchedPair) : CorrelationSums :=
  {| cX := cX s + odi p;
     cY := cY s + vas p;
     cXY := cXY s + odi p * vas p;
     cXX := cXX s + odi p * odi p;
     cYY := cYY s + vas p * vas p |}.

Definition correlation_sums (matchedPairs : list MatchedPair) : CorrelationSums :=
  fold_left add_pair matchedPairs
    {| cX := 0; cY := 0; cXY := 0; cXX := 0; cYY := 0 |}.

Definition pair_count (matchedPairs : list MatchedPair) : Q :=
  inject_Z (Z.of_nat (length matchedPairs)).

Definition numerator (matchedPairs : list MatchedPair) : Q :=
  let n := pair_count matchedPairs in
  let s := correlation_sums matchedPairs in
  n * cXY s - cX s * cY s.

(** The argument of [Math.sqrt] in the denominator. *)
Definition radicand (matchedPairs : list MatchedPair) : Q :=
  let n := pair_count matchedPairs in
  let s := correlation_sums matchedPairs in
  (n * cXX s - cX s * cX s) * (n * cYY s - cY s * cY s).

Definition calculatePainFunctionCorrelation
  (odiAssessments : list ODIAssessment) (vasScores : list VASScore)
  : option (number R) :=
  if ((length odiAssessments <? 3)%nat || (length vasScores <? 3)%nat)%bool then None
  else
    let matchedPairs := match_pairs odiAssessments vasScores in
    if (length matchedPairs <? 3)%nat then None
    else
      let denominator := Math_sqrt (radicand matchedPairs) in
      if strict_eq_zero denominator then None
      else
        let correlation := js_div (Fin (Q2R (numerator matchedPairs))) denominator in
        Some correlation.

(** ** calculateWeeksSinceBaseline *)

(** [now] is [new Date().getTime()], in milliseconds. *)
Definition calculateWeeksSinceBaseline (now : Z) (assessments : list ODIAssessment) : Z :=
  if (length assessments =? 0)%nat then 0%Z
  else
    match find_baseline assessments with
    | Some baseline =>
        let baselineDate := getTime (assessment_date baseline) in
        let diffTime := (now - baselineDate)%Z in
        let diffWeeks := Math_floor_div diffTime msPerWeek in
        diffWeeks
    | None => 0%Z
    end.

(** ** detectPlateau *)

(** The [for (let i = 1; ...)] loop over adjacent scores. *)
Fixpoint adjacent_changes (recentAssessments : list ODIAssessment) : list Q :=
  match recentAssessments with
  | previous :: ((current :: _) as rest) =>
      Qabs (percentage_score current - percentage_score previous)
        :: adjacent_changes rest
  | _ => []
  end.

Definition small_change (change : Q) : bool := negb (Qle_bool 5 change).

Definition detectPlateau (assessments : list ODIAssessment) : bool :=
  if (length assessments <? 4)%nat then false
  else
    let recentAssessments := slice_last 4 assessments in
    let changes := adjacent_changes recentAssessments in
    let allSmallChanges := forallb small_change changes in
    allSmallChanges.

(** ** Storage backend *)

Inductive TreatmentType : Type := post_surgery | conservative | physical_therapy.

Definition TreatmentType_eqb (a b : TreatmentType) : bool :=
  match a, b with
  | post_surgery, post_surgery
  | conservative, conservative
  | physical_therapy, physical_therapy => true
  | _, _ => false
  end.

Record ODIRow : Type := {
  odi_patient_id : string;
  odi_columns : ODIAssessment
}.

Record VASRow : Type := {
  vas_patient_id : string;
  vas_columns : VASScore
}.

Record MetricsRow : Type := {
  patient_id : string;
  metric_date : date;
  time_to_mcid_days : option Z;
  current_trajectory_slope : option (number Q);
  pain_function_correlation : option (number R);
  weeks_since_baseline : Z;
  plateau_detected : bool
}.

Record BenchmarkRow : Type := {
  treatment_type : TreatmentType;
  weeks_post_treatment : Z;
  mean_odi_score : Q;
  std_dev_odi_score : Q;
  percentile_25 : Q;
  percentile_50 : Q;
  percentile_75 : Q;
  sample_size : Z
}.

(** The tables the engine reads and writes, and the browser console. *)
Record World : Type := {
  odi_assessments : list ODIRow;
  vas_pain_scores : list VASRow;
  analytics_metrics : list MetricsRow;
  population_benchmarks : list BenchmarkRow;
  console : list string
}.

(** How a request to the backend ends: it is served, it resolves with an
    [error] in its response (the client's way to report connectivity and
    authorization failures), or its promise rejects. *)
Inductive Outcome : Type :=
| Served
| ErrorResponse (error : string)
| Rejection (reason : string).

(** The condition of the backend during a call, per table. *)
Record Conditions : Type := {
  odi_request : Outcome;
  vas_request : Outcome;
  metrics_request : Outcome;
  benchmarks_request : Outcome
}.

Record PostgrestResponse (A : Type) : Type := {
  data : option A;
  error : option string
}.

(** A settled promise. *)
Inductive Promise (A : Type) : Type :=
| Fulfilled (value : A)
| Rejected (reason : string).

Arguments Rejected {A}.

(** An asynchronous computation, awaited: it runs on the world and settles. *)
Definition Async (A : Type) : Type := World -> Promise A * World.

Definition ret {A : Type} (a : A) : Async A := fun w => (Fulfilled a, w).

Definition throw {A : Type} (reason : string) : Async A := fun w => (Rejected reason, w).

Definition bind {A B : Type} (m : Async A) (k : A -> Async B) : Async B :=
  fun w =>
    match m w with
    | (Fulfilled a, w') => k a w'
    | (Rejected reason, w') => (Rejected reason, w')
    end.

Definition try_catch {A : Type} (m : Async A) (handler : string -> Async A) : Async A :=
  fun w =>
    match m w with
    | (Fulfilled a, w') => (Fulfilled a, w')
    | (Rejected reason, w') => handler reason w'
    end.

(** [Promise.all([a, b])]: both computations run, and the whole is rejected
    when one of them is.  When both are rejected, [Promise.all] reports the
    rejection that happens first in time, which the conditions of the backend
    do not tell; the model then reports the first in array order.  What is
    stated about the reported reason is exact where at most one of the two is
    rejected, and names both reasons where both are. *)
Definition Promise_all {A B : Type} (a : Async A) (b : Async B) : Async (A * B) :=
  fun w =>
    let (pa, w1) := a w in
    let (pb, w2) := b w1 in
    match pa, pb with
    | Fulfilled x, Fulfilled y => (Fulfilled (x, y), w2)
    | Rejected reason, _ => (Rejected reason, w2)
    | _, Rejected reason => (Rejected reason, w2)
    end.

Definition console_error (message : string) : Async unit :=
  fun w =>
    (Fulfilled tt,
     {| odi_assessments := odi_assessments w;
        vas_pain_scores := vas_pain_scores w;
        analytics_metrics := analytics_metrics w;
        population_benchmarks := population_benchmarks w;
        console := console w ++ [message] |}).

Declare Scope async_scope.
Delimit Scope async_scope with async.
Notation "x <- m ;; k" := (bind m (fun x => k))
  (at level 61, m at next level, right associativity) : async_scope.
Notation "m ;;; k" := (bind m (fun _ => k))
  (at level 61, right associativity) : async_scope.

(** [.order(column, { ascending: true })]: a stable sort on an integer key. *)
Fixpoint insert_by {A : Type} (key : A -> Z) (x : A) (sorted : list A) : list A :=
  match sorted with
  | [] => [x]
  | y :: rest =>
      if (key x <=? key y)%Z then x :: sorted else y :: insert_by key x rest
  end.

Definition order_by {A : Type} (key : A -> Z) (rows : list A) : list A :=
  fold_right (insert_by key) [] rows.

(** The response of a request whose rows are [rows] when it is served. *)
Definition respond {A : Type} (o : Outcome) (rows : option A)
  : Async (PostgrestResponse A) :=
  match o with
  | Served => ret {| data := rows; error := None |}
  | ErrorResponse e => ret {| data := None; error := Some e |}
  | Rejection reason => throw reason
  end.

(** [from('odi_assessments').select(...).eq('patient_id', patientId)
     .order('assessment_date', { ascending: true })]. *)
Definition odi_series (w : World) (patientId : string) : list ODIAssessment :=
  order_by assessment_date
    (map odi_columns
       (filter (fun r => String.eqb (odi_patient_id r) patientId) (odi_assessments w))).

Definition select_odi_assessments (c : Conditions) (patientId : string)
  : Async (PostgrestResponse (list ODIAssessment)) :=
  fun w => respond (odi_request c) (Some (odi_series w patientId)) w.

(** [from('vas_pain_scores').select(...).eq('patient_id', patientId)
     .order('recorded_date', { ascending: true })]. *)
Definition vas_series (w : World) (patientId : string) : list VASScore :=
  order_by recorded_date
    (map vas_columns
       (filter (fun r => String.eqb (vas_patient_id r) patientId) (vas_pain_scores w))).

Definition select_vas_pain_scores (c : Conditions) (patientId : string)
  : Async (PostgrestResponse (list VASScore)) :=
  fun w => respond (vas_request c) (Some (vas_series w patientId)) w.

(** [upsert(row, { onConflict: 'patient_id,metric_date' })] on a table. *)
Fixpoint upsert (row : MetricsRow) (table : list MetricsRow) : list MetricsRow :=
  match table with
  | [] => [row]
  | r :: rest =>
      if (String.eqb (patient_id r) (patient_id row)
          && (metric_date r =? metric_date row)%Z)%bool
      then row :: rest
      else r :: upsert row rest
  end.

(** A number or null as the JSON body of a request carries it:
    [JSON.stringify] writes [null] for NaN and for the infinities. *)
Definition JSON_number {A : Type} (x : option (number A)) : option (number A) :=
  match x with
  | Some (Fin q) => Some (Fin q)
  | _ => None
  end.

(** The row as the backend receives it. *)
Definition as_sent (row : MetricsRow) : MetricsRow :=
  {| patient_id := patient_id row;
     metric_date := metric_date row;
     time_to_mcid_days := time_to_mcid_days row;
     current_trajectory_slope := JSON_number (current_trajectory_slope row);
     pain_function_correlation := JSON_number (pain_function_correlation row);
     weeks_since_baseline := weeks_since_baseline row;
     plateau_detected := plateau_detected row |}.

Definition upsert_analytics_metrics (c : Conditions) (row : MetricsRow)
  : Async (PostgrestResponse unit) :=
  fun w =>
    match metrics_request c with
    | Served =>
        (Fulfilled {| data := None; error := None |},
         {| odi_assessments := odi_assessments w;
            vas_pain_scores := vas_pain_scores w;
            analytics_metrics := upsert (as_sent row) (analytics_metrics w);
            population_benchmarks := population_benchmarks w;
            console := console w |})
    | o => respond o None w
    end.

(** [from('population_benchmarks').select('*').eq('treatment_type', t)
     .lte('weeks_post_treatment', weeks)
     .order('weeks_post_treatment', { ascending: false }).limit(1).maybeSingle()]. *)
Definition matching_benchmarks (treatmentType : TreatmentType) (weeksSinceTreatment : Z)
  (table : list BenchmarkRow) : list BenchmarkRow :=
  filter (fun r => (TreatmentType_eqb (treatment_type r) treatmentType
                    && (weeks_post_treatment r <=? weeksSinceTreatment)%Z)%bool)
    table.

Definition select_population_benchmark (c : Conditions) (treatmentType : TreatmentType)
  (weeksSinceTreatment : Z) : Async (PostgrestResponse BenchmarkRow) :=
  fun w =>
    respond (benchmarks_request c)
      (hd_error
         (order_by (fun r => (- weeks_post_treatment r)%Z)
            (matching_benchmarks treatmentType weeksSinceTreatment
               (population_benchmarks w)))) w.

(** ** fetchODIAssessments, fetchVASScores, saveAnalytics *)

Section Engine.
Variable c : Conditions.

Local Open Scope async_scope.

Definition or_empty {A : Type} (rows : option (list A)) : list A :=
  match rows with
  | Some l => l
  | None => []
  end.

Definition fetchODIAssessments (patientId : string) : Async (list ODIAssessment) :=
  response <- select_odi_assessments c patientId ;;
  match error response with
  | Some e => throw e
  | None => ret (or_empty (data response))
  end.

Definition fetchVASScores (patientId : string) : Async (list VASScore) :=
  response <- select_vas_pain_scores c patientId ;;
  match error response with
  | Some e =>
      console_error ("Error fetching VAS scores: " ++ e) ;;;
      ret []
  | None => ret (or_empty (data response))
  end.

(** [new Date().toISOString().split('T')[0]]: the UTC day of [now]. *)
Definition today (now : Z) : date := Math_floor_div now msPerDay.

Definition saveAnalytics (now : Z) (patientId : string) (analytics : AnalyticsResult)
  : Async unit :=
  try_catch
    (upsert_analytics_metrics c
       {| patient_id := patientId;
          metric_date := today now;
          time_to_mcid_days := timeToMCID analytics;
          current_trajectory_slope := trajectorySlope analytics;
          pain_function_correlation := painFunctionCorrelation analytics;
          weeks_since_baseline := weeksSinceBaseline analytics;
          plateau_detected := plateauDetected analytics |} ;;;
     ret tt)
    (fun error => console_error ("Error saving analytics: " ++ error)).

(** ** calculateAnalytics *)

(** The five metrics of the fetched series. *)
Definition compute_metrics (now : Z) (odiData : list ODIAssessment)
  (vasData : list VASScore) : AnalyticsResult :=
  {| timeToMCID := calculateTimeToMCID odiData;
     trajectorySlope := calculateTrajectorySlope odiData;
     painFunctionCorrelation := calculatePainFunctionCorrelation odiData vasData;
     weeksSinceBaseline := calculateWeeksSinceBaseline now odiData;
     plateauDetected := detectPlateau odiData |}.

(** [now] is the reading of the clock during the call. *)
Definition calculateAnalytics (now : Z) (patientId : string) : Async AnalyticsResult :=
  fetched <- Promise_all (fetchODIAssessments patientId) (fetchVASScores patientId) ;;
  let (odiData, vasData) := (fetched : list ODIAssessment * list VASScore) in
  let result := compute_metrics now odiData vasData in
  saveAnalytics now patientId result ;;;
  ret result.

(** ** getBenchmarkComparison *)

Record BenchmarkComparison : Type := {
  mean : Q;
  percentile : Z;
  interpretation : string
}.

Definition percentile_band (patientScore : Q) (row : BenchmarkRow) : Z :=
  if Qle_bool patientScore (percentile_25 row) then 25
  else if Qle_bool patientScore (percentile_50 row) then 50
  else if Qle_bool patientScore (percentile_75 row) then 75
  else 90.

Definition interpret (percentile : Z) : string :=
  if (percentile <=? 25)%Z then "excellent"
  else if (percentile <=? 50)%Z then "above_average"
  else if (percentile <=? 75)%Z then "average"
  else "below_average".

Definition getBenchmarkComparison (patientScore : Q) (treatmentType : TreatmentType)
  (weeksSinceTreatment : Z) : Async (option BenchmarkComparison) :=
  response <- select_population_benchmark c treatmentType weeksSinceTreatment ;;
  match error response, data response with
  | None, Some row =>
      let percentile := percentile_band patientScore row in
      let interpretation := interpret percentile in
      ret (Some {| mean := mean_odi_score row;
                   percentile := percentile;
                   interpretation := interpretation |})
  | _, _ =>
      console_error "Error fetching benchmarks:" ;;;
      ret None
  end.
End Engine.

(** ** Sample data *)

Definition assessment (day : Z) (score : Q) (baseline : option bool) : ODIAssessment :=
  {| id := "odi"; assessment_date := day; percentage_score := score; is_baseline := baseline |}.

Definition reading (day : Z) (pain : Z) : VASScore :=
  {| recorded_date := day; pain_score := pain |}.

(** ** Specification predicates *)

(** [baseline] is the first flagged record of the series, or its first record
    when none is flagged. *)
Definition baseline_of (assessments : list ODIAssessment) (baseline : ODIAssessment)
  : Prop :=
  (exists before after,
      assessments = before ++ baseline :: after /\
      flagged baseline = true /\
      Forall (fun a => flagged a = false) before)
  \/ (Forall (fun a => flagged a = false) assessments /\
      exists after, assessments = baseline :: after).

(** The record reaches the MCID threshold against the baseline. *)
Definition achieves (baseline a : ODIAssessment) : Prop :=
  (10 <= percentage_score baseline - percentage_score a)%Q.

(** [k] is the ceiling of [a / b]. *)
Definition is_ceiling (k a b : Z) : Prop := ((k - 1) * b < a <= k * b)%Z.

(** [k] is the floor of [a / b]. *)
Definition is_floor (k a b : Z) : Prop := (k * b <= a < (k + 1) * b)%Z.

(** The result of the chronological scan: the day count of the first record
    that achieves the threshold, or nothing. *)
Definition first_achievement (baseline : ODIAssessment)
  (assessments : list ODIAssessment) (result : option Z) : Prop :=
  (exists before a after days,
      assessments = before ++ a :: after /\
      Forall (fun x => ~ achieves baseline x) before /\
      achieves baseline a /\
      result = Some days /\
      is_ceiling days
        (getTime (assessment_date a) - getTime (assessment_date baseline)) msPerDay /\
      days = (assessment_date a - assessment_date baseline)%Z)
  \/ (Forall (fun x => ~ achieves baseline x) assessments /\ result = None).

Definition by_date (a b : ODIAssessment) : Prop :=
  (assessment_date a <= assessment_date b)%Z.

(** The elapsed weeks between two records, as the code computes them. *)
Definition weeks_between (first last : ODIAssessment) : Q :=
  inject_Z (getTime (assessment_date last) - getTime (assessment_date first))
  / inject_Z msPerDay / 7.

Definition later (a b : ODIAssessment) : Prop :=
  (assessment_date a < assessment_date b)%Z.

Definition score_falls (a b : ODIAssessment) : Prop :=
  (percentage_score b < percentage_score a)%Q.

Definition score_rises (a b : ODIAssessment) : Prop :=
  (percentage_score a < percentage_score b)%Q.

(** The distance in days between an assessment and a pain reading. *)
Definition day_gap (o : ODIAssessment) (v : VASScore) : Z :=
  Z.abs (recorded_date v - assessment_date o).

(** [c] is a pain reading of the series closest in time to the assessment. *)
Definition nearest (vasScores : list VASScore) (o : ODIAssessment) (c : VASScore)
  : Prop :=
  In c vasScores /\ forall v, In v vasScores -> (day_gap o c <= day_gap o v)%Z.

(** The pairs of a series of assessments, in the words of the specification:
    each assessment is paired with a nearest pain reading, and the pair is
    kept when the two are at most 3 days apart. *)
Inductive pairing (vasScores : list VASScore)
  : list ODIAssessment -> list MatchedPair -> Prop :=
| pairing_nil : pairing vasScores [] []
| pairing_keep o c rest pairs :
    nearest vasScores o c ->
    (day_gap o c <= 3)%Z ->
    pairing vasScores rest pairs ->
    pairing vasScores (o :: rest)
      ({| odi := percentage_score o; vas := inject_Z (pain_score c * 10) |} :: pairs)
| pairing_discard o c rest pairs :
    nearest vasScores o c ->
    (3 < day_gap o c)%Z ->
    pairing vasScores rest pairs ->
    pairing vasScores (o :: rest) pairs.

(** The sum of a quantity over the pairs. *)
Definition total (f : MatchedPair -> Q) (pairs : list MatchedPair) : Q :=
  fold_right Qplus 0 (map f pairs).

Definition covariance_term (pairs : list MatchedPair) : Q :=
  pair_count pairs * total (fun p => odi p * vas p) pairs
  - total odi pairs * total vas pairs.

Definition variance_term (f : MatchedPair -> Q) (pairs : list MatchedPair) : Q :=
  pair_count pairs * total (fun p => f p * f p) pairs
  - total f pairs * total f pairs.

(** The Pearson correlation coefficient of the pairs, by the formula of the
    specification. *)
Definition pearson (pairs : list MatchedPair) : R :=
  (Q2R (covariance_term pairs)
   / sqrt (Q2R (variance_term odi pairs * variance_term vas pairs)))%R.

(** The percentile bands of the benchmark comparison. *)
Definition banded (score : Q) (row : BenchmarkRow) (p : Z) (i : string) : Prop :=
  ((score <= percentile_25 row)%Q /\ p = 25%Z /\ i = "excellent"%string)
  \/ ((percentile_25 row < score)%Q /\ (score <= percentile_50 row)%Q /\
      p = 50%Z /\ i = "above_average"%string)
  \/ ((percentile_50 row < score)%Q /\ (score <= percentile_75 row)%Q /\
      p = 75%Z /\ i = "average"%string)
  \/ ((percentile_75 row < score)%Q /\ p = 90%Z /\ i = "below_average"%string).

(** The benchmark rows for post-surgery patients that the migration inserts. *)
Definition benchmark (weeks : Z) (m sd p25 p50 p75 : Q) (size : Z) : BenchmarkRow :=
  {| treatment_type := post_surgery; weeks_post_treatment := weeks;
     mean_odi_score := m; std_dev_odi_score := sd;
     percentile_25 := p25; percentile_50 := p50; percentile_75 := p75;
     sample_size := size |}.

Definition sample_benchmarks : list BenchmarkRow :=
  [ benchmark 0 65 (125 # 10) 58 66 74 250;
    benchmark 2 58 (118 # 10) 50 58 66 248;
    benchmark 4 52 (112 # 10) 44 52 60 245;
    benchmark 6 46 (105 # 10) 38 46 54 242;
    benchmark 8 40 (98 # 10) 33 40 48 238;
    benchmark 12 32 (92 # 10) 26 32 39 235;
    benchmark 16 26 (85 # 10) 20 26 32 230;
    benchmark 24 18 (78 # 10) 13 18 24 225 ].

Definition sample_world : World :=
  {| odi_assessments :=
       [ {| odi_patient_id := "p1"; odi_columns := assessment 20380 40 None |};
         {| odi_patient_id := "p1"; odi_columns := assessment 20366 58 None |};
         {| odi_patient_id := "p2"; odi_columns := assessment 20370 30 None |} ];
     vas_pain_scores :=
       [ {| vas_patient_id := "p1"; vas_columns := reading 20366 7 |} ];
     analytics_metrics := [];
     population_benchmarks := sample_benchmarks;
     console := [] |}.

Definition all_served : Conditions :=
  {| odi_request := Served; vas_request := Served;
     metrics_request := Served; benchmarks_request := Served |}.

(** The pain-score request is answered with an error. *)
Definition vas_denied : Conditions :=
  {| odi_request := Served; vas_request := ErrorResponse "permission denied";
     metrics_request := Served; benchmarks_request := Served |}.

(** The snapshot write is rejected. *)
Definition metrics_down : Conditions :=
  {| odi_request := Served; vas_request := Served;
     metrics_request := Rejection "network"; benchmarks_request := Served |}.

(** ** Callers: the progress page *)

(** [String(n)] of an integer. *)
Definition Number_toString (n : Z) : string := NilZero.string_of_int (Z.to_int n).

(** [x.toFixed(0)]: the nearest integer, the larger one on a tie, after the
    sign. *)
Definition toFixed0 (x : Q) : string :=
  if Qle_bool 0 x then Number_toString (Qfloor (x + (1 # 2)))
  else ("-" ++ Number_toString (Qfloor (- x + (1 # 2))))%string.

Module Profile.

(** [treatment_type] of a patient profile. *)
Inductive treatment : Type :=
| surgery_planned
| post_surgery
| injury_recovery
| chronic.

Record PatientProfile : Type := {
  treatment_type : option treatment
}.

End Profile.

Module ProgressPage.

Inductive TimeRange : Type := week | month | three_months | all.

(** The state of the component that the modelled functions read and set. *)
Record State : Type := {
  user : option string;
  profile : option Profile.PatientProfile;
  odiAssessments : list ODIAssessment;
  analytics : option AnalyticsResult;
  benchmark : option BenchmarkComparison;
  timeRange : TimeRange
}.

Definition setAnalytics (s : State) (analyticsData : AnalyticsResult) : State :=
  {| user := user s; profile := profile s; odiAssessments := odiAssessments s;
     analytics := Some analyticsData; benchmark := benchmark s;
     timeRange := timeRange s |}.

Definition setBenchmark (s : State) (benchmarkData : BenchmarkComparison) : State :=
  {| user := user s; profile := profile s; odiAssessments := odiAssessments s;
     analytics := analytics s; benchmark := Some benchmarkData;
     timeRange := timeRange s |}.

Section Loads.
Variable c : Conditions.

Local Open Scope async_scope.

Definition loadAnalytics (now : Z) (s : State) : Async State :=
  match user s with
  | None => ret s
  | Some user_id =>
      try_catch
        (analyticsData <- calculateAnalytics c now user_id ;;
         ret (setAnalytics s analyticsData))
        (fun error =>
           console_error ("Error loading analytics: " ++ error) ;;;
           ret s)
  end.

(** [profile.treatment_type === 'post_surgery' ? 'post_surgery' : 'conservative']. *)
Definition benchmark_treatment (p : Profile.PatientProfile) : TreatmentType :=
  match Profile.treatment_type p with
  | Some Profile.post_surgery => post_surgery
  | _ => conservative
  end.

(** [analytics?.weeksSinceBaseline || 0]. *)
Definition weeks_or_zero (a : option AnalyticsResult) : Z :=
  match a with
  | Some r => if (weeksSinceBaseline r =? 0)%Z then 0%Z else weeksSinceBaseline r
  | None => 0%Z
  end.

Definition loadBenchmark (s : State) : Async State :=
  match user s, profile s with
  | Some _, Some p =>
      match nth_error (odiAssessments s) (length (odiAssessments s) - 1) with
      | None => ret s
      | Some latestAssessment =>
          let treatmentType := benchmark_treatment p in
          let weeksSince := weeks_or_zero (analytics s) in
          try_catch
            (benchmarkData <- getBenchmarkComparison c
                                (percentage_score latestAssessment)
                                treatmentType weeksSince ;;
             match benchmarkData with
             | Some b => ret (setBenchmark s b)
             | None => ret s
             end)
            (fun error =>
               console_error ("Error loading benchmark: " ++ error) ;;;
               ret s)
      end
  | _, _ => ret s
  end.

End Loads.

Definition ranges (r : TimeRange) : Z :=
  match r with
  | week => 7
  | month => 30
  | three_months => 90
  | all => 999999
  end.

Definition getFilteredData (now : Z) (s : State) : list ODIAssessment :=
  let days := ranges (timeRange s) in
  filter
    (fun d =>
       let diffTime := (now - getTime (assessment_date d))%Z in
       let diffDays := Math_ceil_div diffTime msPerDay in
       (diffDays <=? days)%Z)
    (odiAssessments s).

End ProgressPage.

(** ** Callers: the home page *)

Module HomePage.

Inductive InsightType : Type := success | warning | info.

Record Insight : Type := {
  id : string;
  type : InsightType;
  title : string;
  message : string;
  action : option string
}.

(** [LatestODI]; its field [percentage_score] is [latest_score] here. *)
Record LatestODI : Type := {
  latest_score : Q;
  latest_date : date;
  disability_level : string
}.

(** [PreviousODI]; its field [percentage_score] is [previous_score] here. *)
Record PreviousODI : Type := {
  previous_score : Q
}.

Record State : Type := {
  user : option string;
  latestODI : option LatestODI;
  previousODI : option PreviousODI;
  analytics : option AnalyticsResult;
  daysPostTreatment : Z
}.

Definition setAnalytics (s : State) (analyticsData : AnalyticsResult) : State :=
  {| user := user s; latestODI := latestODI s; previousODI := previousODI s;
     analytics := Some analyticsData; daysPostTreatment := daysPostTreatment s |}.

(** The effect that sets [daysPostTreatment] from the surgery date. *)
Definition days_post_treatment (now : Z) (surgery_date : date) : Z :=
  let diffTime := (now - getTime surgery_date)%Z in
  let diffDays := Math_floor_div diffTime msPerDay in
  if (0 <? diffDays)%Z then diffDays else 0%Z.

Section Loads.
Variable c : Conditions.

Local Open Scope async_scope.

Definition loadAnalytics (now : Z) (s : State) : Async State :=
  match user s with
  | None => ret s
  | Some user_id =>
      try_catch
        (analyticsData <- calculateAnalytics c now user_id ;;
         ret (setAnalytics s analyticsData))
        (fun error =>
           console_error ("Error loading analytics: " ++ error) ;;;
           ret s)
  end.

End Loads.

Section Insights.
(** [Date.prototype.getDate]: the day of the month, in the time zone of the
    browser, of midnight UTC of a date. *)
Variable getDate : date -> Z.

Local Open Scope string_scope.

(** The insight on the last change of score, when both scores are loaded. *)
Definition score_insight (s : State) : list Insight :=
  match latestODI s, previousODI s with
  | Some latest, Some previous =>
      let improvement := (previous_score previous - latest_score latest)%Q in
      if Qle_bool 10 improvement then
        [ {| id := "mcid";
             type := success;
             title := "Meaningful Improvement Achieved";
             message :=
               "Your ODI score improved by " ++ toFixed0 improvement
               ++ " points - that's a clinically meaningful change! This suggests your treatment is working well.";
             action := Some "View Progress" |} ]
      else if negb (Qle_bool 0 improvement) then
        [ {| id := "setback";
             type := warning;
             title := "Score Increased";
             message :=
               "Your latest ODI score is " ++ toFixed0 (Qabs improvement)
               ++ " points higher. This might indicate increased symptoms. Consider discussing with your care team.";
             action := Some "Track Symptoms" |} ]
      else []
  | _, _ => []
  end.

Definition plateau_insight (s : State) : list Insight :=
  match analytics s with
  | Some a =>
      if plateauDetected a then
        [ {| id := "plateau";
             type := warning;
             title := "Progress Plateau Detected";
             message :=
               "Your recovery has slowed over recent assessments. This is normal, but discussing exercise modifications with your physiotherapist might help.";
             action := Some "Find Providers" |} ]
      else []
  | None => []
  end.

(** [analytics?.timeToMCID && analytics.timeToMCID < 60]: a day count of
    null or 0 is falsy. *)
Definition fast_recovery_insight (s : State) : list Insight :=
  match analytics s with
  | Some a =>
      match timeToMCID a with
      | Some days =>
          if (negb (days =? 0)%Z && (days <? 60)%Z)%bool then
            [ {| id := "fast_recovery";
                 type := success;
                 title := "Excellent Recovery Pace";
                 message :=
                   "You achieved meaningful improvement in just "
                   ++ Number_toString days
                   ++ " days - faster than average! Keep following your treatment plan.";
                 action := None |} ]
          else []
      | None => []
      end
  | None => []
  end.

Definition first_assessment_insight (s : State) : list Insight :=
  match latestODI s with
  | None =>
      if (7 <? daysPostTreatment s)%Z then
        [ {| id := "first_assessment";
             type := info;
             title := "Time for Your First Assessment";
             message :=
               "Complete your baseline ODI assessment to start tracking your recovery progress and get personalized insights.";
             action := Some "Take Assessment" |} ]
      else []
  | Some _ => []
  end.

Definition overdue_insight (s : State) : list Insight :=
  match latestODI s with
  | Some latest =>
      if (14 <? daysPostTreatment s - getDate (latest_date latest))%Z then
        [ {| id := "overdue_assessment";
             type := info;
             title := "Assessment Due";
             message :=
               "It has been over 2 weeks since your last assessment. Regular tracking helps optimize your recovery.";
             action := Some "Take Assessment" |} ]
      else []
  | None => []
  end.

(** The value that [generateInsights] sets as [insights]. *)
Definition generateInsights (s : State) : list Insight :=
  let newInsights :=
    (score_insight s ++ plateau_insight s ++ fast_recovery_insight s
     ++ first_assessment_insight s ++ overdue_insight s)%list in
  firstn 3 newInsights.

Definition shows (name : string) (insights : list Insight) : bool :=
  existsb (fun i => String.eqb (id i) name) insights.

End Insights.

End HomePage.

(** ** Further specification predicates *)

(** The snapshot stored for a patient and a day. *)
Definition snapshot_of (table : list MetricsRow) (patientId : string) (day : date)
  : option MetricsRow :=
  find (fun r => (String.eqb (patient_id r) patientId
                  && (metric_date r =? day)%Z)%bool) table.

(** The row that [saveAnalytics] writes. *)
Definition snapshot_row (now : Z) (patientId : string) (a : AnalyticsResult)
  : MetricsRow :=
  {| patient_id := patientId;
     metric_date := today now;
     time_to_mcid_days := timeToMCID a;
     current_trajectory_slope := trajectorySlope a;
     pain_function_correlation := painFunctionCorrelation a;
     weeks_since_baseline := weeksSinceBaseline a;
     plateau_detected := plateauDetected a |}.

(** The distance in time between a pain reading and an instant. *)
Definition time_distance (t : Z) (v : VASScore) : Z :=
  Z.abs (getTime (recorded_date v) - t).

(** Adjacent scores differ by the constant [k]. *)
Definition step (k : Q) (a b : ODIAssessment) : Prop :=
  (percentage_score b == percentage_score a + k)%Q.

Definition by_recorded_date (a b : VASScore) : Prop :=
  (recorded_date a <= recorded_date b)%Z.

(** * Properties *)

(** ** Rounding *)

Lemma msPerDay_pos : (0 < msPerDay)%Z.
Proof. reflexivity. Qed.

Lemma msPerWeek_pos : (0 < msPerWeek)%Z.
Proof. reflexivity. Qed.

Lemma Math_ceil_div_is_ceiling (a b : Z) :
  (0 < b)%Z -> is_ceiling (Math_ceil_div a b) a b.
Proof.
  intros Hb. unfold is_ceiling, Math_ceil_div.
  pose proof (Z.div_mod (- a) b ltac:(lia)) as Hdm.
  pose proof (Z.mod_pos_bound (- a) b Hb) as Hm.
  nia.
Qed.

Lemma Math_floor_div_is_floor (a b : Z) :
  (0 < b)%Z -> is_floor (Math_floor_div a b) a b.
Proof.
  intros Hb. unfold is_floor, Math_floor_div.
  pose proof (Z.div_mod a b ltac:(lia)) as Hdm.
  pose proof (Z.mod_pos_bound a b Hb) as Hm.
  nia.
Qed.

Lemma Math_ceil_div_days (d1 d2 : date) :
  Math_ceil_div (getTime d1 - getTime d2) msPerDay = (d1 - d2)%Z.
Proof.
  unfold Math_ceil_div, getTime.
  replace (- (d1 * msPerDay - d2 * msPerDay))%Z with ((d2 - d1) * msPerDay)%Z by ring.
  rewrite Z.div_mul by (pose proof msPerDay_pos; lia). ring.
Qed.

(** ** The baseline *)

Lemma find_flagged_split (l : list ODIAssessment) :
  match find flagged l with
  | Some b =>
      exists before after,
        l = before ++ b :: after /\ flagged b = true /\
        Forall (fun a => flagged a = false) before
  | None => Forall (fun a => flagged a = false) l
  end.
Proof.
  induction l as [|x l IH]; simpl.
  - constructor.
  - destruct (flagged x) eqn:Hx.
    + exists [], l. repeat split; auto.
    + destruct (find flagged l) as [b|].
      * destruct IH as (before & after & -> & Hb & Hall).
        exists (x :: before), after. repeat split; auto.
      * constructor; auto.
Qed.

Lemma find_baseline_spec (l : list ODIAssessment) (b : ODIAssessment) :
  find_baseline l = Some b -> baseline_of l b.
Proof.
  unfold find_baseline, baseline_of. intros Hb.
  pose proof (find_flagged_split l) as Hs.
  destruct (find flagged l) as [b'|].
  - injection Hb as <-. left. exact Hs.
  - right. split; [exact Hs|].
    destruct l as [|x l]; simpl in Hb; [discriminate|].
    injection Hb as <-. now exists l.
Qed.

Lemma find_baseline_nonempty (l : list ODIAssessment) :
  l <> [] -> exists b, find_baseline l = Some b.
Proof.
  unfold find_baseline. intros Hl.
  destruct (find flagged l) as [b|]; [now exists b|].
  destruct l as [|x l]; [contradiction|]. now exists x.
Qed.

(** ** Time to MCID *)

Lemma achieves_iff (b a : ODIAssessment) :
  Qle_bool ODI_MCID_THRESHOLD (improvement b a) = true <-> achieves b a.
Proof. apply Qle_bool_iff. Qed.

Lemma baseline_never_achieves (b : ODIAssessment) : ~ achieves b b.
Proof.
  unfold achieves. intros H.
  assert (percentage_score b - percentage_score b == 0)%Q as E by ring.
  rewrite E in H. revert H. apply Qlt_not_le. reflexivity.
Qed.

Lemma scan_for_MCID_spec (b : ODIAssessment) (l : list ODIAssessment) :
  first_achievement b l (scan_for_MCID b l).
Proof.
  induction l as [|x l IH]; simpl.
  - right. split; constructor.
  - destruct (Qle_bool ODI_MCID_THRESHOLD (improvement b x)) eqn:Hx.
    + left. exists [], x, l, (Math_ceil_div
        (getTime (assessment_date x) - getTime (assessment_date b)) msPerDay).
      repeat split; auto.
      * now apply achieves_iff.
      * apply Math_ceil_div_is_ceiling, msPerDay_pos.
      * apply Math_ceil_div_is_ceiling, msPerDay_pos.
      * apply Math_ceil_div_days.
    + assert (~ achieves b x) as Hn.
      { intros Ha. apply achieves_iff in Ha. congruence. }
      destruct IH as [(before & a & after & days & -> & Hbefore & Ha & Hr & Hc & Hd)
                     | [Hall Hr]].
      * left. exists (x :: before), a, after, days. repeat split; auto; apply Hc.
      * right. split; auto.
Qed.

(** C1: a series of fewer than two assessments has no time to MCID; otherwise,
    with the baseline the first flagged record (the earliest record when none
    is flagged), the result is the day count, rounded up, from the baseline
    date to the date of the first record in scan order whose score is at
    least 10 points below the baseline score, and nothing when no record is;
    the baseline itself never reaches the threshold. *)
Theorem calculateTimeToMCID_spec (assessments : list ODIAssessment) :
  ((length assessments < 2)%nat -> calculateTimeToMCID assessments = None) /\
  ((2 <= length assessments)%nat ->
   exists baseline,
     baseline_of assessments baseline /\
     ~ achieves baseline baseline /\
     first_achievement baseline assessments (calculateTimeToMCID assessments)).
Proof.
  unfold calculateTimeToMCID. split; intros Hlen.
  - apply Nat.ltb_lt in Hlen. now rewrite Hlen.
  - assert ((length assessments <? 2)%nat = false) as -> by (apply Nat.ltb_ge; lia).
    destruct (find_baseline_nonempty (l := assessments)) as [b Hb].
    { intros ->. simpl in Hlen. lia. }
    rewrite Hb. exists b. split; [|split].
    + now apply find_baseline_spec.
    + apply baseline_never_achieves.
    + apply scan_for_MCID_spec.
Qed.

(** A 12-point drop on day 21 is reached in 21 days; a 9-point drop is not
    an achievement; the first qualifying record wins, not the best one. *)
Example calculateTimeToMCID_examples :
  calculateTimeToMCID [assessment 0 70 None; assessment 21 58 None] = Some 21%Z /\
  calculateTimeToMCID [assessment 0 70 None; assessment 21 61 None] = None /\
  calculateTimeToMCID
    [assessment 0 70 None; assessment 14 60 None; assessment 21 40 None] = Some 14%Z.
Proof. repeat split; reflexivity. Qed.


Lemma by_date_trans : Relations_1.Transitive by_date.
Proof. intros x y z. unfold by_date. lia. Qed.



(** ** Weeks since baseline *)

(** C4, as the code has it: nothing for an empty series, otherwise the floor
    of the weeks from the baseline date to now, which is negative exactly
    when the baseline date lies after now: the value is not clamped. *)
Theorem calculateWeeksSinceBaseline_spec (now : Z) (assessments : list ODIAssessment) :
  match assessments with
  | [] => calculateWeeksSinceBaseline now assessments = 0%Z
  | _ :: _ =>
      exists baseline,
        baseline_of assessments baseline /\
        is_floor (calculateWeeksSinceBaseline now assessments)
          (now - getTime (assessment_date baseline)) msPerWeek /\
        ((0 <= calculateWeeksSinceBaseline now assessments)%Z <->
         (getTime (assessment_date baseline) <= now)%Z)
  end.
Proof.
  destruct assessments as [|x l]; [reflexivity|].
  destruct (find_baseline_nonempty (l := x :: l)) as [b Hb]; [discriminate|].
  exists b. split; [now apply find_baseline_spec|].
  unfold calculateWeeksSinceBaseline. rewrite Hb.
  cbn [length Nat.eqb].
  pose proof (Math_floor_div_is_floor (now - getTime (assessment_date b)) msPerWeek_pos)
    as Hf.
  split; [exact Hf|].
  unfold is_floor in Hf. pose proof msPerWeek_pos. nia.
Qed.

(** C4 fails as stated: on 2025-11-02 a baseline dated 2025-11-03 gives -1. *)
Lemma calculateWeeksSinceBaseline_future_baseline :
  calculateWeeksSinceBaseline 1762041600000 [assessment 20395 70 None] = (-1)%Z /\
  (calculateWeeksSinceBaseline 1762041600000 [assessment 20395 70 None] < 0)%Z.
Proof. split; reflexivity. Qed.

(** ** Plateau detection *)

Lemma slice_last_app {A : Type} (k : nat) (before window : list A) :
  length window = k -> slice_last k (before ++ window) = window.
Proof.
  intros Hk. unfold slice_last. rewrite length_app, Hk.
  replace (length before + k - k)%nat with (length before + 0)%nat by lia.
  rewrite skipn_app, Nat.add_0_r, skipn_all.
  replace (length before - length before)%nat with 0%nat by lia.
  reflexivity.
Qed.

Lemma slice_last_short {A : Type} (k : nat) (l : list A) :
  (length l <= k)%nat -> slice_last k l = l.
Proof.
  intros Hk. unfold slice_last.
  replace (length l - k)%nat with 0%nat by lia. reflexivity.
Qed.

Lemma slice_last_split {A : Type} (k : nat) (l : list A) :
  (k <= length l)%nat ->
  exists before, l = before ++ slice_last k l /\ length (slice_last k l) = k.
Proof.
  intros Hk. unfold slice_last. exists (firstn (length l - k) l).
  split; [now rewrite firstn_skipn|]. rewrite length_skipn. lia.
Qed.

Lemma small_change_iff (change : Q) : small_change change = true <-> (change < 5)%Q.
Proof.
  unfold small_change. rewrite negb_true_iff.
  destruct (Qle_bool 5 change) eqn:E.
  - apply Qle_bool_iff in E. split; [discriminate|].
    intros Hlt. exfalso. exact (Qlt_not_le _ _ Hlt E).
  - split; [intros _|reflexivity].
    apply Qnot_le_lt. intros Hle. apply Qle_bool_iff in Hle. congruence.
Qed.

(** C6: no plateau under four assessments; with four or more, a plateau
    exactly when each of the three steps between adjacent scores of the last
    four is under 5 points in absolute value; four scores of 50 are a
    plateau, and 50, 40, 30, 20 are not. *)
Theorem detectPlateau_spec :
  (forall assessments,
      (length assessments < 4)%nat -> detectPlateau assessments = false) /\
  (forall assessments,
      (4 <= length assessments)%nat ->
      exists before a b c d,
        assessments = before ++ [a; b; c; d] /\
        (detectPlateau assessments = true <->
         (Qabs (percentage_score b - percentage_score a) < 5)%Q /\
         (Qabs (percentage_score c - percentage_score b) < 5)%Q /\
         (Qabs (percentage_score d - percentage_score c) < 5)%Q)) /\
  detectPlateau
    [assessment 0 50 None; assessment 7 50 None;
     assessment 14 50 None; assessment 21 50 None] = true /\
  detectPlateau
    [assessment 0 50 None; assessment 7 40 None;
     assessment 14 30 None; assessment 21 20 None] = false.
Proof.
  split; [|split; [|split]]; try reflexivity.
  - intros l Hlen. unfold detectPlateau.
    apply Nat.ltb_lt in Hlen. now rewrite Hlen.
  - intros l Hlen.
    destruct (@slice_last_split _ 4%nat l Hlen) as (before & E & Hw).
    destruct (slice_last 4 l) as [|a [|b [|c [|d [|? ?]]]]]; try discriminate.
    exists before, a, b, c, d. split; [exact E|]. rewrite E. clear E Hw.
    unfold detectPlateau.
    assert ((length (before ++ [a; b; c; d]) <? 4)%nat = false) as ->.
    { apply Nat.ltb_ge. rewrite length_app. simpl. lia. }
    rewrite slice_last_app by reflexivity.
    cbn [adjacent_changes forallb].
    rewrite !andb_true_iff, !small_change_iff. tauto.
Qed.

(** ** Trajectory slope *)

Lemma js_div_Fin_nonzero (x y : Q) :
  ~ (y == 0)%Q -> js_div (Fin x) (Fin y) = Fin (x / y)%Q.
Proof.
  intros Hy. unfold js_div. cbn [c_eqb c_zero Q_Carrier c_div].
  destruct (Qeq_bool y 0) eqn:E; [|reflexivity].
  apply Qeq_bool_iff in E. contradiction.
Qed.

Lemma js_div_Fin_zero (x y : Q) :
  (y == 0)%Q -> is_finite (js_div (Fin x) (Fin y)) = false.
Proof.
  intros Hy. unfold js_div. cbn [c_eqb c_zero Q_Carrier].
  apply Qeq_bool_iff in Hy. rewrite Hy.
  destruct (is_negative (Fin x)) as [[|]|]; reflexivity.
Qed.

Lemma weeks_between_pos (first last : ODIAssessment) :
  later first last -> (0 < weeks_between first last)%Q.
Proof.
  unfold later, weeks_between, getTime. intros Hlt.
  assert (0 < inject_Z (assessment_date last * msPerDay
                        - assessment_date first * msPerDay))%Q as Hd.
  { unfold Qlt, inject_Z. simpl Qnum. simpl Qden.
    pose proof msPerDay_pos. nia. }
  set (x := inject_Z _) in *. clearbody x.
  apply Qlt_shift_div_l; [reflexivity|].
  apply Qlt_shift_div_l; [reflexivity|].
  setoid_replace (0 * 7 * inject_Z msPerDay)%Q with 0%Q by ring.
  exact Hd.
Qed.

Lemma weeks_between_same_date (first last : ODIAssessment) :
  assessment_date first = assessment_date last ->
  (weeks_between first last == 0)%Q.
Proof.
  unfold weeks_between. intros ->. rewrite Z.sub_diag. reflexivity.
Qed.

Lemma Qdiv_neg_pos (x w : Q) : (x < 0 -> 0 < w -> x / w < 0)%Q.
Proof.
  intros Hx Hw. apply Qlt_shift_div_r; [exact Hw|].
  now setoid_replace (0 * w)%Q with 0%Q by ring.
Qed.

Lemma Qdiv_pos_pos (x w : Q) : (0 < x -> 0 < w -> 0 < x / w)%Q.
Proof.
  intros Hx Hw. apply Qlt_shift_div_l; [exact Hw|].
  now setoid_replace (0 * w)%Q with 0%Q by ring.
Qed.

(** The shape of the result on a window of two, three and four records. *)
Lemma slope_of_two (a b : ODIAssessment) :
  exists s,
    calculateTrajectorySlope [a; b]
    = Some (js_div (js_mul (Fin s) (Fin 1)) (Fin (weeks_between a b))) /\
    (s == percentage_score b - percentage_score a)%Q.
Proof.
  unfold calculateTrajectorySlope.
  cbn [length Nat.ltb Nat.leb slice_last Nat.sub skipn nth_error regression_sums
       sumX sumY sumXY sumXX].
  rewrite js_div_Fin_nonzero by (intros E; vm_compute in E; discriminate).
  eexists. split; [reflexivity|].
  unfold inject_Z. simpl Z.of_nat. field.
Qed.

Lemma slope_of_three (a b c : ODIAssessment) :
  exists s,
    calculateTrajectorySlope [a; b; c]
    = Some (js_div (js_mul (Fin s) (Fin 2)) (Fin (weeks_between a c))) /\
    (s == (percentage_score c - percentage_score a) * (1 # 2))%Q.
Proof.
  unfold calculateTrajectorySlope.
  cbn [length Nat.ltb Nat.leb slice_last Nat.sub skipn nth_error regression_sums
       sumX sumY sumXY sumXX].
  rewrite js_div_Fin_nonzero by (intros E; vm_compute in E; discriminate).
  eexists. split; [reflexivity|].
  unfold inject_Z. simpl Z.of_nat. field.
Qed.

Lemma slope_of_four (a b c d : ODIAssessment) :
  exists s,
    calculateTrajectorySlope [a; b; c; d]
    = Some (js_div (js_mul (Fin s) (Fin 3)) (Fin (weeks_between a d))) /\
    (s == (3 * (percentage_score d - percentage_score a)
           + (percentage_score c - percentage_score b)) * (1 # 10))%Q.
Proof.
  unfold calculateTrajectorySlope.
  cbn [length Nat.ltb Nat.leb slice_last Nat.sub skipn nth_error regression_sums
       sumX sumY sumXY sumXX].
  rewrite js_div_Fin_nonzero by (intros E; vm_compute in E; discriminate).
  eexists. split; [reflexivity|].
  unfold inject_Z. simpl Z.of_nat. field.
Qed.

Lemma calculateTrajectorySlope_window (before : list ODIAssessment)
  (a b c d : ODIAssessment) :
  calculateTrajectorySlope (before ++ [a; b; c; d])
  = calculateTrajectorySlope [a; b; c; d].
Proof.
  unfold calculateTrajectorySlope.
  assert ((length (before ++ [a; b; c; d]) <? 2)%nat = false) as ->.
  { apply Nat.ltb_ge. rewrite length_app. simpl. lia. }
  rewrite slice_last_app by reflexivity. reflexivity.
Qed.

Lemma series_shape {A : Type} (l : list A) :
  (2 <= length l)%nat ->
  (exists a b, l = [a; b]) \/
  (exists a b c, l = [a; b; c]) \/
  (exists before a b c d, l = before ++ [a; b; c; d]).
Proof.
  intros Hlen.
  destruct l as [|a [|b [|c [|d l]]]]; simpl in Hlen; try lia.
  - left. now exists a, b.
  - right. left. now exists a, b, c.
  - right. right.
    destruct (@slice_last_split _ 4%nat (a :: b :: c :: d :: l)) as (before & E & Hw).
    { simpl. lia. }
    destruct (slice_last 4%nat (a :: b :: c :: d :: l)) as [|w [|x [|y [|z [|? ?]]]]];
      try discriminate.
    exists before, w, x, y, z. exact E.
Qed.

Lemma Sorted_app_r {A : Type} (R : A -> A -> Prop) (before window : list A) :
  Sorted R (before ++ window) -> Sorted R window.
Proof.
  induction before as [|x before IH]; simpl; [auto|].
  intros Hs. apply Sorted_inv in Hs. tauto.
Qed.

(** On a window whose points share one date the elapsed weeks are zero and
    the result is Infinity, -Infinity or NaN, never null. *)
Lemma calculateTrajectorySlope_zero_elapsed (assessments : list ODIAssessment) (d : date) :
  (2 <= length assessments)%nat ->
  Forall (fun a => assessment_date a = d) (slice_last 4 assessments) ->
  exists v, calculateTrajectorySlope assessments = Some v /\ is_finite v = false.
Proof.
  intros Hlen Hall.
  assert (forall s k first last,
             assessment_date first = d -> assessment_date last = d ->
             is_finite (js_div (js_mul (Fin s) (Fin k))
                               (Fin (weeks_between first last))) = false) as Hnf.
  { intros s k first last H1 H2. apply js_div_Fin_zero.
    apply weeks_between_same_date. congruence. }
  destruct (series_shape assessments Hlen)
    as [(a & b & ->) | [(a & b & c & ->) | (before & a & b & c & e & ->)]].
  - rewrite slice_last_short in Hall by (simpl; lia).
    destruct (slope_of_two a b) as (s & -> & _).
    eexists. split; [reflexivity|].
    inversion Hall as [|? ? Ha Hall1]; subst.
    inversion Hall1 as [|? ? Hb _]; subst. now apply Hnf.
  - rewrite slice_last_short in Hall by (simpl; lia).
    destruct (slope_of_three a b c) as (s & -> & _).
    eexists. split; [reflexivity|].
    inversion Hall as [|? ? Ha Hall1]; subst.
    inversion Hall1 as [|? ? Hb Hall2]; subst.
    inversion Hall2 as [|? ? Hc _]; subst. now apply Hnf.
  - rewrite slice_last_app in Hall by reflexivity.
    rewrite calculateTrajectorySlope_window.
    destruct (slope_of_four a b c e) as (s & -> & _).
    eexists. split; [reflexivity|].
    inversion Hall as [|? ? Ha Hall1]; subst.
    inversion Hall1 as [|? ? Hb Hall2]; subst.
    inversion Hall2 as [|? ? Hc Hall3]; subst.
    inversion Hall3 as [|? ? He _]; subst. now apply Hnf.
Qed.

(** C2 does not hold of the code: two assessments taken on one day, 50 then
    40, give -Infinity, and two equal scores on one day give NaN. *)
Theorem calculateTrajectorySlope_same_day :
  calculateTrajectorySlope [assessment 20394 50 None; assessment 20394 40 None]
  = Some NegInfinity /\
  calculateTrajectorySlope [assessment 20394 50 None; assessment 20394 50 None]
  = Some NaN.
Proof. split; reflexivity. Qed.

Lemma js_slope_finite (s k w : Q) :
  (0 < w)%Q -> js_div (js_mul (Fin s) (Fin k)) (Fin w) = Fin (s * k / w)%Q.
Proof.
  intros Hw. cbn [js_mul c_mul Q_Carrier].
  apply js_div_Fin_nonzero. intros E. rewrite E in Hw.
  exact (Qlt_irrefl 0 Hw).
Qed.

(** C8: on a series of at least two assessments with strictly increasing
    dates, strictly falling scores give a negative slope per week and strictly
    rising scores a positive one. *)
Theorem calculateTrajectorySlope_sign (assessments : list ODIAssessment) :
  (2 <= length assessments)%nat ->
  Sorted later assessments ->
  (Sorted score_falls assessments ->
   exists q, calculateTrajectorySlope assessments = Some (Fin q) /\ (q < 0)%Q) /\
  (Sorted score_rises assessments ->
   exists q, calculateTrajectorySlope assessments = Some (Fin q) /\ (0 < q)%Q).
Proof.
  intros Hlen Hdates.
  destruct (series_shape assessments Hlen)
    as [(a & b & ->) | [(a & b & c & ->) | (before & a & b & c & e & ->)]].
  - destruct (slope_of_two a b) as (s & -> & Hs).
    assert (later a b) as Hab.
    { inversion Hdates as [|? ? _ Hhd]; subst. now inversion Hhd. }
    rewrite js_slope_finite by now apply weeks_between_pos.
    pose proof (weeks_between_pos Hab) as Hw.
    split; intros Hscores; eexists; (split; [reflexivity|]).
    + apply Qdiv_neg_pos; [|exact Hw].
      inversion Hscores as [|? ? _ Hhd]; subst. inversion Hhd; subst.
      unfold score_falls in *. Lqa.lra.
    + apply Qdiv_pos_pos; [|exact Hw].
      inversion Hscores as [|? ? _ Hhd]; subst. inversion Hhd; subst.
      unfold score_rises in *. Lqa.lra.
  - destruct (slope_of_three a b c) as (s & -> & Hs).
    assert (later a c) as Hac.
    { inversion Hdates as [|? ? Hd1 Hhd1]; subst. inversion Hhd1; subst.
      inversion Hd1 as [|? ? _ Hhd2]; subst. inversion Hhd2; subst.
      unfold later in *. lia. }
    rewrite js_slope_finite by now apply weeks_between_pos.
    pose proof (weeks_between_pos Hac) as Hw.
    split; intros Hscores; eexists; (split; [reflexivity|]).
    + apply Qdiv_neg_pos; [|exact Hw].
      inversion Hscores as [|? ? Hs1 Hhd1]; subst. inversion Hhd1; subst.
      inversion Hs1 as [|? ? _ Hhd2]; subst. inversion Hhd2; subst.
      unfold score_falls in *. Lqa.lra.
    + apply Qdiv_pos_pos; [|exact Hw].
      inversion Hscores as [|? ? Hs1 Hhd1]; subst. inversion Hhd1; subst.
      inversion Hs1 as [|? ? _ Hhd2]; subst. inversion Hhd2; subst.
      unfold score_rises in *. Lqa.lra.
  - rewrite calculateTrajectorySlope_window.
    apply Sorted_app_r in Hdates.
    destruct (slope_of_four a b c e) as (s & -> & Hs).
    assert (later a e) as Hae.
    { inversion Hdates as [|? ? Hd1 Hhd1]; subst. inversion Hhd1; subst.
      inversion Hd1 as [|? ? Hd2 Hhd2]; subst. inversion Hhd2; subst.
      inversion Hd2 as [|? ? _ Hhd3]; subst. inversion Hhd3; subst.
      unfold later in *. lia. }
    rewrite js_slope_finite by now apply weeks_between_pos.
    pose proof (weeks_between_pos Hae) as Hw.
    split; intros Hscores; apply Sorted_app_r in Hscores;
      eexists; (split; [reflexivity|]).
    + apply Qdiv_neg_pos; [|exact Hw].
      inversion Hscores as [|? ? Hs1 Hhd1]; subst. inversion Hhd1; subst.
      inversion Hs1 as [|? ? Hs2 Hhd2]; subst. inversion Hhd2; subst.
      inversion Hs2 as [|? ? _ Hhd3]; subst. inversion Hhd3; subst.
      unfold score_falls in *. Lqa.lra.
    + apply Qdiv_pos_pos; [|exact Hw].
      inversion Hscores as [|? ? Hs1 Hhd1]; subst. inversion Hhd1; subst.
      inversion Hs1 as [|? ? Hs2 Hhd2]; subst. inversion Hhd2; subst.
      inversion Hs2 as [|? ? _ Hhd3]; subst. inversion Hhd3; subst.
      unfold score_rises in *. Lqa.lra.
Qed.

Lemma calculateTrajectorySlope_sign_witness :
  (exists q,
      calculateTrajectorySlope
        [assessment 0 50 None; assessment 7 40 None; assessment 14 30 None]
      = Some (Fin q) /\ (q < 0)%Q) /\
  (exists q,
      calculateTrajectorySlope
        [assessment 0 20 None; assessment 7 30 None; assessment 14 45 None;
         assessment 21 50 None; assessment 28 60 None]
      = Some (Fin q) /\ (0 < q)%Q).
Proof.
  split.
  - apply (@calculateTrajectorySlope_sign
             [assessment 0 50 None; assessment 7 40 None; assessment 14 30 None]).
    + simpl. lia.
    + repeat constructor.
    + repeat constructor.
  - apply (@calculateTrajectorySlope_sign
             [assessment 0 20 None; assessment 7 30 None; assessment 14 45 None;
              assessment 21 50 None; assessment 28 60 None]).
    + simpl. lia.
    + repeat constructor.
    + repeat constructor.
Defined.

(** ** The orchestration *)

Lemma calculateAnalytics_outcome (c : Conditions) (now : Z) (patientId : string)
  (w : World) :
  fst (calculateAnalytics c now patientId w)
  = match odi_request c, vas_request c with
    | ErrorResponse e, _ | Rejection e, _ => Rejected e
    | Served, Rejection e => Rejected e
    | Served, ErrorResponse _ =>
        Fulfilled (compute_metrics now (odi_series w patientId) [])
    | Served, Served =>
        Fulfilled (compute_metrics now (odi_series w patientId)
                     (vas_series w patientId))
    end.
Proof.
  unfold calculateAnalytics, bind, Promise_all, fetchODIAssessments, fetchVASScores,
    saveAnalytics, try_catch, upsert_analytics_metrics, bind,
    select_odi_assessments, select_vas_pain_scores, respond, ret, throw,
    console_error.
  destruct (odi_request c), (vas_request c), (metrics_request c); reflexivity.
Qed.

Lemma calculateAnalytics_tables (c : Conditions) (now : Z) (patientId : string)
  (w : World) :
  let w' := snd (calculateAnalytics c now patientId w) in
  odi_assessments w' = odi_assessments w /\ vas_pain_scores w' = vas_pain_scores w.
Proof.
  unfold calculateAnalytics, bind, Promise_all, fetchODIAssessments, fetchVASScores,
    saveAnalytics, try_catch, upsert_analytics_metrics, bind,
    select_odi_assessments, select_vas_pain_scores, respond, ret, throw,
    console_error.
  destruct (odi_request c), (vas_request c), (metrics_request c); split; reflexivity.
Qed.

Lemma odi_series_ext (w w' : World) (patientId : string) :
  odi_assessments w = odi_assessments w' ->
  odi_series w patientId = odi_series w' patientId.
Proof. unfold odi_series. now intros ->. Qed.

Lemma vas_series_ext (w w' : World) (patientId : string) :
  vas_pain_scores w = vas_pain_scores w' ->
  vas_series w patientId = vas_series w' patientId.
Proof. unfold vas_series. now intros ->. Qed.

(** C3, as the code has it: a failed fetch of the assessments fails the whole
    call, with the error of that fetch when the pain-score request is not
    rejected as well, and with one of the two errors when it is; an error
    answer to the pain-score fetch is logged and replaced by an empty pain
    series, and the call returns the metrics of the assessments alone; only a
    rejected pain-score request fails the call. *)
Theorem calculateAnalytics_fetch_failures (c : Conditions) (now : Z)
  (patientId : string) (w : World) :
  (forall e,
      odi_request c = ErrorResponse e \/ odi_request c = Rejection e ->
      (forall reason, vas_request c <> Rejection reason) ->
      fst (calculateAnalytics c now patientId w) = Rejected e) /\
  (forall e reason,
      odi_request c = ErrorResponse e \/ odi_request c = Rejection e ->
      vas_request c = Rejection reason ->
      fst (calculateAnalytics c now patientId w) = Rejected e \/
      fst (calculateAnalytics c now patientId w) = Rejected reason) /\
  (forall e,
      odi_request c = Served -> vas_request c = ErrorResponse e ->
      fst (calculateAnalytics c now patientId w)
      = Fulfilled (compute_metrics now (odi_series w patientId) []) /\
      In ("Error fetching VAS scores: " ++ e)%string
         (console (snd (calculateAnalytics c now patientId w)))) /\
  (forall e,
      odi_request c = Served -> vas_request c = Rejection e ->
      fst (calculateAnalytics c now patientId w) = Rejected e).
Proof.
  pose proof (calculateAnalytics_outcome c now patientId w) as Hout.
  split; [|split; [|split]].
  - intros e [E|E] _; rewrite E in Hout; exact Hout.
  - intros e reason [E|E] _; rewrite E in Hout; left; exact Hout.
  - intros e Eo Ev. rewrite Eo, Ev in Hout. split; [exact Hout|].
    unfold calculateAnalytics, bind, Promise_all, fetchODIAssessments, fetchVASScores,
      saveAnalytics, try_catch, upsert_analytics_metrics, bind,
      select_odi_assessments, select_vas_pain_scores, respond, ret, throw,
      console_error.
    rewrite Eo, Ev.
    destruct (metrics_request c); cbn -[append In]; rewrite ?in_app_iff;
      cbn -[append]; auto.
  - intros e Eo Ev. rewrite Eo, Ev in Hout. exact Hout.
Qed.

(** C3 fails as stated: with the pain-score fetch answered by an error the
    call still returns a result, with no correlation. *)
Lemma calculateAnalytics_survives_vas_error :
  vas_request vas_denied = ErrorResponse "permission denied" /\
  exists result,
    fst (calculateAnalytics vas_denied 1762041600000 "p1" sample_world)
    = Fulfilled result /\
    painFunctionCorrelation result = None.
Proof.
  split; [reflexivity|].
  rewrite calculateAnalytics_outcome. cbn [odi_request vas_request vas_denied].
  eexists. split; reflexivity.
Qed.

(** C9: the result depends on the two fetched series and the clock alone.  A
    failed snapshot write never fails the call, calls that differ in the
    outcome of the write or in the stored snapshots return the same result,
    and a second call on the world the first one left returns the same
    result again. *)
Theorem calculateAnalytics_pure (c c' : Conditions) (now : Z) (patientId : string)
  (w w' : World) :
  odi_request c = odi_request c' ->
  vas_request c = vas_request c' ->
  odi_assessments w = odi_assessments w' ->
  vas_pain_scores w = vas_pain_scores w' ->
  fst (calculateAnalytics c now patientId w)
  = fst (calculateAnalytics c' now patientId w') /\
  fst (calculateAnalytics c' now patientId (snd (calculateAnalytics c now patientId w)))
  = fst (calculateAnalytics c now patientId w) /\
  (odi_request c = Served -> vas_request c = Served ->
   fst (calculateAnalytics c now patientId w)
   = Fulfilled (compute_metrics now (odi_series w patientId) (vas_series w patientId))).
Proof.
  intros Eo Ev Et Es.
  destruct (calculateAnalytics_tables c now patientId w) as [Ht1 Hs1].
  rewrite !calculateAnalytics_outcome.
  rewrite <- Eo, <- Ev.
  rewrite (odi_series_ext _ w' patientId Et), (vas_series_ext _ w' patientId Es).
  rewrite (odi_series_ext _ w' patientId (eq_trans Ht1 Et)),
          (vas_series_ext _ w' patientId (eq_trans Hs1 Es)).
  split; [reflexivity|]. split; [reflexivity|].
  intros -> ->. reflexivity.
Qed.

Lemma calculateAnalytics_pure_witness :
  fst (calculateAnalytics all_served 1762041600000 "p1" sample_world)
  = fst (calculateAnalytics metrics_down 1762041600000 "p1" sample_world) /\
  fst (calculateAnalytics metrics_down 1762041600000 "p1"
         (snd (calculateAnalytics all_served 1762041600000 "p1" sample_world)))
  = fst (calculateAnalytics all_served 1762041600000 "p1" sample_world) /\
  (odi_request all_served = Served -> vas_request all_served = Served ->
   fst (calculateAnalytics all_served 1762041600000 "p1" sample_world)
   = Fulfilled (compute_metrics 1762041600000 (odi_series sample_world "p1")
                  (vas_series sample_world "p1"))).
Proof.
  apply (@calculateAnalytics_pure all_served metrics_down 1762041600000 "p1"
           sample_world sample_world); reflexivity.
Defined.

(** ** Benchmark comparison *)

Lemma hd_error_insert_by {A : Type} (key : A -> Z) (x : A) (l : list A) :
  hd_error (insert_by key x l)
  = Some match hd_error l with
         | Some y => if (key x <=? key y)%Z then x else y
         | None => x
         end.
Proof.
  destruct l as [|y l]; simpl; [reflexivity|].
  destruct (key x <=? key y)%Z; reflexivity.
Qed.

(** The first row of an ordered selection has the least key. *)
Lemma hd_error_order_by {A : Type} (key : A -> Z) (l : list A) :
  match hd_error (order_by key l) with
  | Some x => In x l /\ forall y, In y l -> (key x <= key y)%Z
  | None => l = []
  end.
Proof.
  induction l as [|a l IH]; [reflexivity|].
  change (order_by key (a :: l)) with (insert_by key a (order_by key l)).
  rewrite hd_error_insert_by.
  destruct (hd_error (order_by key l)) as [y|].
  - destruct IH as [Hy Hmin].
    destruct (key a <=? key y)%Z eqn:E.
    + apply Z.leb_le in E. split; [now left|].
      intros z [<-|Hz]; [lia|]. specialize (Hmin z Hz). lia.
    + apply Z.leb_gt in E. split; [now right|].
      intros z [<-|Hz]; [lia|]. now apply Hmin.
  - subst l. split; [now left|]. intros z [<-|[]]. lia.
Qed.

Lemma percentile_band_banded (score : Q) (row : BenchmarkRow) :
  banded score row (percentile_band score row)
    (interpret (percentile_band score row)).
Proof.
  unfold banded, percentile_band.
  destruct (Qle_bool score (percentile_25 row)) eqn:E1.
  { left. apply Qle_bool_iff in E1. repeat split; auto. }
  assert (percentile_25 row < score)%Q as H1.
  { apply Qnot_le_lt. intros H. apply Qle_bool_iff in H. congruence. }
  destruct (Qle_bool score (percentile_50 row)) eqn:E2.
  { right. left. apply Qle_bool_iff in E2. repeat split; auto. }
  assert (percentile_50 row < score)%Q as H2.
  { apply Qnot_le_lt. intros H. apply Qle_bool_iff in H. congruence. }
  destruct (Qle_bool score (percentile_75 row)) eqn:E3.
  { right. right. left. apply Qle_bool_iff in E3. repeat split; auto. }
  assert (percentile_75 row < score)%Q as H3.
  { apply Qnot_le_lt. intros H. apply Qle_bool_iff in H. congruence. }
  right. right. right. repeat split; auto.
Qed.

(** C7: the row looked up is the one of the treatment type with the greatest
    weeks not above the elapsed weeks; on it the percentile and the
    interpretation follow the four bands (25 excellent, 50 above average,
    75 average, 90 below average, a score equal to the median in the second);
    with no such row, or an error answer, the result is null.  On the sample
    table a score of 18 at week 24 post surgery is in band 50, above
    average, and a lookup before the first row is null. *)
Theorem getBenchmarkComparison_spec (c : Conditions) (w : World)
  (score : Q) (treatmentType : TreatmentType) (weeks : Z) :
  let matching := matching_benchmarks treatmentType weeks (population_benchmarks w) in
  let outcome := fst (getBenchmarkComparison c score treatmentType weeks w) in
  match benchmarks_request c with
  | Served =>
      (matching = [] /\ outcome = Fulfilled None) \/
      (exists row p i,
          In row (population_benchmarks w) /\
          treatment_type row = treatmentType /\
          (weeks_post_treatment row <= weeks)%Z /\
          (forall r, In r matching ->
                     (weeks_post_treatment r <= weeks_post_treatment row)%Z) /\
          banded score row p i /\
          outcome = Fulfilled (Some {| mean := mean_odi_score row;
                                       percentile := p;
                                       interpretation := i |}))
  | ErrorResponse _ => outcome = Fulfilled None
  | Rejection reason => outcome = Rejected reason
  end /\
  fst (getBenchmarkComparison all_served 18 post_surgery 24 sample_world)
  = Fulfilled (Some {| mean := 18; percentile := 50;
                       interpretation := "above_average" |}) /\
  fst (getBenchmarkComparison all_served 18 post_surgery (-1) sample_world)
  = Fulfilled None.
Proof.
  split; [|split; reflexivity].
  unfold getBenchmarkComparison, select_population_benchmark, bind, respond, ret,
    throw, console_error.
  destruct (benchmarks_request c); cbn [fst error data]; try reflexivity.
  pose proof (hd_error_order_by (fun r => (- weeks_post_treatment r)%Z)
                (matching_benchmarks treatmentType weeks (population_benchmarks w)))
    as Hhd.
  destruct (hd_error _) as [row|].
  - right. destruct Hhd as [Hin Hmax].
    unfold matching_benchmarks in Hin. apply filter_In in Hin.
    destruct Hin as [Hin Hsel]. apply andb_true_iff in Hsel.
    destruct Hsel as [Htt Hweeks]. apply Z.leb_le in Hweeks.
    exists row, (percentile_band score row), (interpret (percentile_band score row)).
    repeat split; auto.
    + destruct (treatment_type row), treatmentType; simpl in Htt;
        reflexivity || discriminate.
    + intros r Hr. specialize (Hmax r Hr). lia.
    + apply percentile_band_banded.
  - left. split; [exact Hhd | reflexivity].
Qed.

(** ** Pain and function correlation *)

Lemma fold_left_closer (t : Z) (rest : list VASScore) (x : VASScore) :
  let dist v := Z.abs (getTime (recorded_date v) - t) in
  let c := fold_left (closer t) rest x in
  In c (x :: rest) /\ forall v, In v (x :: rest) -> (dist c <= dist v)%Z.
Proof.
  cbv zeta. revert x. induction rest as [|y rest IH]; intros x; simpl.
  - split; [now left|]. intros v [<-|[]]. lia.
  - destruct (IH (closer t x y)) as [Hin Hmin]. split.
    + destruct Hin as [E|Hin]; [|now right; right].
      rewrite <- E. unfold closer.
      destruct (_ <? _)%Z; [right; now left | now left].
    + assert (Z.abs (getTime (recorded_date (closer t x y)) - t)
                <= Z.abs (getTime (recorded_date x) - t) /\
              Z.abs (getTime (recorded_date (closer t x y)) - t)
                <= Z.abs (getTime (recorded_date y) - t))%Z as [Hx Hy].
      { unfold closer.
        destruct (Z.ltb_spec (Z.abs (getTime (recorded_date y) - t))
                             (Z.abs (getTime (recorded_date x) - t))); lia. }
      pose proof (Hmin (closer t x y) (or_introl eq_refl)) as Hc.
      intros v [<-|[<-|Hv]]; [lia | lia |].
      apply Hmin. now right.
Qed.

Lemma time_gap_days (o : ODIAssessment) (v : VASScore) :
  Z.abs (getTime (recorded_date v) - getTime (assessment_date o))
  = (day_gap o v * msPerDay)%Z.
Proof.
  unfold day_gap, getTime. rewrite <- Z.mul_sub_distr_r, Z.abs_mul.
  reflexivity.
Qed.

Lemma reduce_closer_nearest (vasScores : list VASScore) (o : ODIAssessment)
  (c : VASScore) :
  reduce (closer (getTime (assessment_date o))) vasScores = Some c ->
  nearest vasScores o c.
Proof.
  destruct vasScores as [|x rest]; [discriminate|]. simpl. intros [= <-].
  destruct (fold_left_closer (getTime (assessment_date o)) rest x) as [Hin Hmin].
  split; [exact Hin|].
  intros v Hv. specialize (Hmin v Hv). rewrite !time_gap_days in Hmin.
  pose proof msPerDay_pos. nia.
Qed.

Lemma gap_days_value (o : ODIAssessment) (v : VASScore) :
  (gap_days o v == inject_Z (day_gap o v))%Q.
Proof.
  unfold gap_days, day_gap, getTime.
  rewrite <- Z.mul_sub_distr_r.
  set (d := (recorded_date v - assessment_date o)%Z).
  assert (inject_Z (d * msPerDay) / inject_Z msPerDay == inject_Z d)%Q as E.
  { rewrite inject_Z_mult. field. intros H. vm_compute in H. discriminate. }
  rewrite E. unfold Qabs, inject_Z. reflexivity.
Qed.

Lemma gap_days_within (o : ODIAssessment) (v : VASScore) :
  Qle_bool (gap_days o v) 3 = true <-> (day_gap o v <= 3)%Z.
Proof.
  rewrite Qle_bool_iff, gap_days_value.
  change 3%Q with (inject_Z 3). rewrite <- Zle_Qle. reflexivity.
Qed.

Lemma match_pairs_pairing (odiAssessments : list ODIAssessment)
  (vasScores : list VASScore) :
  vasScores <> [] -> pairing vasScores odiAssessments (match_pairs odiAssessments vasScores).
Proof.
  intros Hne. induction odiAssessments as [|o rest IH]; simpl; [constructor|].
  destruct (reduce (closer (getTime (assessment_date o))) vasScores) as [c|] eqn:Hc.
  - pose proof (reduce_closer_nearest _ _ Hc) as Hn.
    destruct (Qle_bool (gap_days o c) 3) eqn:Hgap.
    + apply pairing_keep; auto. now apply gap_days_within.
    + eapply pairing_discard; eauto.
      destruct (Z.le_gt_cases (day_gap o c) 3) as [Hle|Hgt]; [|lia].
      apply gap_days_within in Hle. congruence.
  - destruct vasScores; [contradiction | discriminate].
Qed.

Lemma pair_count_cons (p : MatchedPair) (pairs : list MatchedPair) :
  (pair_count (p :: pairs) == pair_count pairs + 1)%Q.
Proof.
  unfold pair_count. cbn [length]. rewrite Nat2Z.inj_succ, <- Z.add_1_r.
  rewrite inject_Z_plus. reflexivity.
Qed.

Lemma total_cons (f : MatchedPair -> Q) (p : MatchedPair) (pairs : list MatchedPair) :
  total f (p :: pairs) = (f p + total f pairs)%Q.
Proof. reflexivity. Qed.

(** The accumulated sums are the totals over the pairs. *)
Lemma fold_add_pair_totals (pairs : list MatchedPair) (s : CorrelationSums) :
  let s' := fold_left add_pair pairs s in
  (cX s' == cX s + total odi pairs)%Q /\
  (cY s' == cY s + total vas pairs)%Q /\
  (cXY s' == cXY s + total (fun p => odi p * vas p) pairs)%Q /\
  (cXX s' == cXX s + total (fun p => odi p * odi p) pairs)%Q /\
  (cYY s' == cYY s + total (fun p => vas p * vas p) pairs)%Q.
Proof.
  cbv zeta. revert s. induction pairs as [|p pairs IH]; intros s.
  - simpl. unfold total. simpl. repeat split; ring.
  - cbn [fold_left]. destruct (IH (add_pair s p)) as (H1 & H2 & H3 & H4 & H5).
    rewrite H1, H2, H3, H4, H5, !total_cons. cbn [add_pair cX cY cXY cXX cYY].
    repeat split; ring.
Qed.

Lemma numerator_covariance (pairs : list MatchedPair) :
  (numerator pairs == covariance_term pairs)%Q.
Proof.
  unfold numerator, covariance_term, correlation_sums.
  destruct (fold_add_pair_totals pairs
              {| cX := 0; cY := 0; cXY := 0; cXX := 0; cYY := 0 |})
    as (H1 & H2 & H3 & _ & _).
  cbv zeta in *. rewrite H1, H2, H3. cbn [cX cY cXY]. ring.
Qed.

Lemma radicand_variances (pairs : list MatchedPair) :
  (radicand pairs == variance_term odi pairs * variance_term vas pairs)%Q.
Proof.
  unfold radicand, variance_term, correlation_sums.
  destruct (fold_add_pair_totals pairs
              {| cX := 0; cY := 0; cXY := 0; cXX := 0; cYY := 0 |})
    as (H1 & H2 & _ & H4 & H5).
  cbv zeta in *. rewrite H1, H2, H4, H5. cbn [cX cY cXX cYY]. ring.
Qed.

Lemma Qsquare_nonneg (u : Q) : (0 <= u * u)%Q.
Proof. Lqa.nra. Qed.

(** The sum of squared deviations from any point is not negative. *)
Lemma squared_deviations_nonneg (f : MatchedPair -> Q) (pairs : list MatchedPair) (z : Q) :
  (0 <= total (fun p => f p * f p) pairs - 2 * z * total f pairs
        + pair_count pairs * (z * z))%Q.
Proof.
  induction pairs as [|p pairs IH].
  - unfold total, pair_count. simpl. apply Qle_lteq. right. ring.
  - rewrite !total_cons, pair_count_cons.
    pose proof (Qsquare_nonneg (f p - z)) as Hsq.
    Lqa.lra.
Qed.

Lemma variance_term_nonneg (f : MatchedPair -> Q) (pairs : list MatchedPair) :
  (0 <= variance_term f pairs)%Q.
Proof.
  unfold variance_term. induction pairs as [|p pairs IH].
  - unfold total, pair_count. simpl. apply Qle_lteq. right. ring.
  - rewrite !total_cons, pair_count_cons.
    pose proof (squared_deviations_nonneg f pairs (f p)) as Hd.
    Lqa.lra.
Qed.

Lemma total_linear (s t : Q) (pairs : list MatchedPair) :
  (total (fun p => s * odi p + t * vas p) pairs
   == s * total odi pairs + t * total vas pairs)%Q.
Proof.
  induction pairs as [|p pairs IH].
  - unfold total. simpl. ring.
  - rewrite !total_cons, IH. ring.
Qed.

Lemma total_quadratic (s t : Q) (pairs : list MatchedPair) :
  (total (fun p => (s * odi p + t * vas p) * (s * odi p + t * vas p)) pairs
   == s * s * total (fun p => odi p * odi p) pairs
      + 2 * s * t * total (fun p => odi p * vas p) pairs
      + t * t * total (fun p => vas p * vas p) pairs)%Q.
Proof.
  induction pairs as [|p pairs IH].
  - unfold total. simpl. ring.
  - rewrite !total_cons, IH. ring.
Qed.

(** The quadratic form of the three terms is positive semi-definite. *)
Lemma quadratic_form_nonneg (s t : Q) (pairs : list MatchedPair) :
  (0 <= s * s * variance_term odi pairs
        + 2 * s * t * covariance_term pairs
        + t * t * variance_term vas pairs)%Q.
Proof.
  pose proof (variance_term_nonneg (fun p => s * odi p + t * vas p) pairs) as H.
  unfold variance_term in H. rewrite total_quadratic, total_linear in H.
  unfold variance_term, covariance_term.
  eapply Qle_trans; [exact H|]. apply Qle_lteq. right. ring.
Qed.

(** Cauchy-Schwarz: the covariance term is bounded by the variance terms. *)
Lemma covariance_bound (pairs : list MatchedPair) :
  (covariance_term pairs * covariance_term pairs
   <= variance_term odi pairs * variance_term vas pairs)%Q.
Proof.
  pose proof (variance_term_nonneg odi pairs) as HA.
  pose proof (variance_term_nonneg vas pairs) as HB.
  set (A := variance_term odi pairs) in *.
  set (B := variance_term vas pairs) in *.
  set (C := covariance_term pairs).
  destruct (Qlt_le_dec 0 B) as [Hpos|Hzero].
  - pose proof (quadratic_form_nonneg B (- C) pairs) as H.
    fold A B C in H.
    assert (0 <= B * (A * B - C * C))%Q as H'.
    { eapply Qle_trans; [exact H|]. apply Qle_lteq. right. ring. }
    Lqa.nra.
  - assert (B == 0)%Q as EB by Lqa.lra.
    pose proof (quadratic_form_nonneg C (- (A + 1)) pairs) as H.
    fold A B C in H.
    assert (0 <= (C * C) * (- A - 2))%Q as H'.
    { eapply Qle_trans; [exact H|]. apply Qle_lteq. right. rewrite EB. ring. }
    pose proof (Qsquare_nonneg C) as Hsq.
    Lqa.nra.
Qed.

Lemma Q2R_zero : Q2R 0 = 0%R.
Proof. unfold Q2R. simpl. Lra.lra. Qed.

(** [Math.sqrt(x) === 0] holds exactly when [x] is zero. *)
Lemma Math_sqrt_zero (x : Q) : strict_eq_zero (Math_sqrt x) = Qeq_bool x 0.
Proof.
  unfold Math_sqrt. destruct (Qle_bool 0 x) eqn:Hle.
  - apply Qle_bool_iff in Hle. cbn [strict_eq_zero c_eqb c_zero R_Carrier].
    destruct (Qeq_bool x 0) eqn:Hz.
    + apply Qeq_bool_iff, Qeq_eqR in Hz. rewrite Hz, Q2R_zero, sqrt_0.
      destruct (Req_EM_T 0 0) as [_|Hn]; [reflexivity | now elim Hn].
    + assert (0 < x)%Q as Hpos.
      { apply Qle_lteq in Hle. destruct Hle as [Hlt|Heq]; [exact Hlt|].
        symmetry in Heq. apply Qeq_bool_iff in Heq. congruence. }
      apply Qlt_Rlt in Hpos. rewrite Q2R_zero in Hpos.
      apply sqrt_lt_R0 in Hpos.
      destruct (Req_EM_T (sqrt (Q2R x)) 0) as [E|_]; [Lra.lra | reflexivity].
  - cbn [strict_eq_zero]. destruct (Qeq_bool x 0) eqn:Hz; [|reflexivity].
    apply Qeq_bool_iff in Hz. rewrite Hz in Hle. discriminate.
Qed.

Lemma ratio_bound (c d : R) :
  (0 < d -> c * c <= d -> -1 <= c / sqrt d <= 1)%R.
Proof.
  intros Hd Hc.
  pose proof (sqrt_lt_R0 d Hd) as Hs.
  pose proof (sqrt_sqrt d (Rlt_le _ _ Hd)) as Hss.
  set (s := sqrt d) in *.
  assert (c / s * s = c)%R as E by (field; Lra.lra).
  assert (- s <= c <= s)%R as [Hlo Hhi] by (split; Lra.nra).
  split; Lra.nra.
Qed.

Lemma radicand_nonneg (pairs : list MatchedPair) : (0 <= radicand pairs)%Q.
Proof.
  rewrite radicand_variances.
  apply Qmult_le_0_compat; apply variance_term_nonneg.
Qed.

(** The value the code returns when the denominator is not zero. *)
Lemma correlation_value (pairs : list MatchedPair) :
  ~ (radicand pairs == 0)%Q ->
  js_div (Fin (Q2R (numerator pairs))) (Math_sqrt (radicand pairs))
  = Fin (pearson pairs) /\
  (-1 <= pearson pairs <= 1)%R.
Proof.
  intros Hnz.
  pose proof (radicand_nonneg pairs) as Hge.
  assert (0 < radicand pairs)%Q as Hpos.
  { apply Qle_lteq in Hge. destruct Hge as [Hlt|Heq]; [exact Hlt|].
    now elim Hnz. }
  assert (pearson pairs
          = Q2R (numerator pairs) / sqrt (Q2R (radicand pairs)))%R as Ep.
  { unfold pearson.
    rewrite (Qeq_eqR _ _ (numerator_covariance pairs)).
    rewrite (Qeq_eqR _ _ (radicand_variances pairs)). reflexivity. }
  pose proof (Qlt_Rlt _ _ Hpos) as HposR. rewrite Q2R_zero in HposR.
  split.
  - unfold Math_sqrt.
    assert (Qle_bool 0 (radicand pairs) = true) as -> by now apply Qle_bool_iff.
    unfold js_div. cbn [c_eqb c_zero c_div R_Carrier].
    pose proof (sqrt_lt_R0 _ HposR) as Hs.
    destruct (Req_EM_T (sqrt (Q2R (radicand pairs))) 0) as [E|_]; [Lra.lra|].
    now rewrite Ep.
  - rewrite Ep. apply ratio_bound; [exact HposR|].
    rewrite <- Q2R_mult. apply Qle_Rle.
    rewrite numerator_covariance, radicand_variances.
    apply covariance_bound.
Qed.

(** C5: no correlation under three assessments or three pain readings; each
    assessment is paired with a pain reading nearest in time and the pair is
    dropped when they are more than 3 days apart; under three pairs there is
    no correlation; otherwise the result is the Pearson coefficient of
    (percentage score, pain score x 10) over the pairs, or nothing when its
    denominator is zero; every result is a finite value in [-1, 1]. *)
Theorem calculatePainFunctionCorrelation_spec
  (odiAssessments : list ODIAssessment) (vasScores : list VASScore) :
  let pairs := match_pairs odiAssessments vasScores in
  let result := calculatePainFunctionCorrelation odiAssessments vasScores in
  ((length odiAssessments < 3)%nat \/ (length vasScores < 3)%nat -> result = None) /\
  (vasScores <> [] -> pairing vasScores odiAssessments pairs) /\
  ((length pairs < 3)%nat -> result = None) /\
  ((3 <= length odiAssessments)%nat -> (3 <= length vasScores)%nat ->
   (3 <= length pairs)%nat ->
   ((variance_term odi pairs * variance_term vas pairs == 0)%Q -> result = None) /\
   (~ (variance_term odi pairs * variance_term vas pairs == 0)%Q ->
    result = Some (Fin (pearson pairs)))) /\
  (forall v, result = Some v -> exists r, v = Fin r /\ (-1 <= r <= 1)%R).
Proof.
  cbv zeta. unfold calculatePainFunctionCorrelation.
  set (pairs := match_pairs odiAssessments vasScores).
  split; [|split; [|split; [|split]]].
  - intros [H|H]; apply Nat.ltb_lt in H; rewrite H; [reflexivity|].
    now rewrite orb_true_r.
  - apply match_pairs_pairing.
  - intros H. apply Nat.ltb_lt in H. rewrite H.
    now destruct (_ || _)%bool.
  - intros H1 H2 H3.
    apply Nat.ltb_ge in H1, H2, H3. rewrite H1, H2, H3. cbn [orb].
    rewrite Math_sqrt_zero. split; intros Hz.
    + rewrite <- radicand_variances in Hz. apply Qeq_bool_iff in Hz.
      now rewrite Hz.
    + rewrite <- radicand_variances in Hz.
      destruct (Qeq_bool (radicand pairs) 0) eqn:E.
      * apply Qeq_bool_iff in E. contradiction.
      * f_equal. apply correlation_value. exact Hz.
  - intros v.
    destruct (_ || _)%bool; [discriminate|].
    destruct (length pairs <? 3)%nat; [discriminate|].
    rewrite Math_sqrt_zero.
    destruct (Qeq_bool (radicand pairs) 0) eqn:E; [discriminate|].
    assert (~ (radicand pairs == 0)%Q) as Hnz.
    { intros H. apply Qeq_bool_iff in H. congruence. }
    destruct (correlation_value Hnz) as [-> Hr].
    intros [= <-]. eexists. split; [reflexivity | exact Hr].
Qed.

(** Scores and pain readings that move in lockstep on the same days have
    correlation 1. *)
Example calculatePainFunctionCorrelation_lockstep :
  calculatePainFunctionCorrelation
    [assessment 0 10 None; assessment 7 20 None; assessment 14 30 None]
    [reading 0 1; reading 7 2; reading 14 3]
  = Some (Fin 1%R).
Proof.
  unfold calculatePainFunctionCorrelation.
  set (pairs := match_pairs _ _).
  cbn [length Nat.ltb Nat.leb orb].
  assert ((length pairs <=? 2)%nat = false) as -> by reflexivity.
  rewrite Math_sqrt_zero.
  assert (Qeq_bool (radicand pairs) 0 = false) as Hnz by reflexivity.
  rewrite Hnz.
  assert (~ (radicand pairs == 0)%Q) as Hne.
  { intros H. apply Qeq_bool_iff in H. congruence. }
  destruct (correlation_value Hne) as [-> _]. do 2 f_equal.
  unfold pearson.
  assert (covariance_term pairs == 600)%Q as Ec by reflexivity.
  assert (variance_term odi pairs * variance_term vas pairs == 600 * 600)%Q as Ev
    by reflexivity.
  rewrite (Qeq_eqR _ _ Ec), (Qeq_eqR _ _ Ev), Q2R_mult.
  assert (Q2R 600 = 600%R) as -> by (unfold Q2R; simpl; Lra.lra).
  rewrite sqrt_square by Lra.lra. field.
Qed.

(** * Further properties *)

(** ** The fetched series *)

Lemma insert_by_Permutation {A : Type} (key : A -> Z) (x : A) (l : list A) :
  Permutation (x :: l) (insert_by key x l).
Proof.
  induction l as [|y l IH]; simpl; [reflexivity|].
  destruct (key x <=? key y)%Z; [reflexivity|].
  rewrite perm_swap. now apply perm_skip.
Qed.

Lemma order_by_Permutation {A : Type} (key : A -> Z) (l : list A) :
  Permutation l (order_by key l).
Proof.
  induction l as [|x l IH]; [reflexivity|].
  change (order_by key (x :: l)) with (insert_by key x (order_by key l)).
  rewrite <- insert_by_Permutation. now apply perm_skip.
Qed.

Lemma insert_by_Sorted {A : Type} (key : A -> Z) (x : A) (l : list A) :
  Sorted (fun a b => (key a <= key b)%Z) l ->
  Sorted (fun a b => (key a <= key b)%Z) (insert_by key x l).
Proof.
  induction l as [|y l IH]; simpl; intros Hs.
  - repeat constructor.
  - destruct (Z.leb_spec (key x) (key y)).
    + constructor; [exact Hs|]. now constructor.
    + apply Sorted_inv in Hs. destruct Hs as [Hs Hhd].
      constructor; [now apply IH|].
      destruct l as [|z l]; simpl.
      * constructor. lia.
      * destruct (Z.leb_spec (key x) (key z)); constructor; try lia.
        now inversion Hhd.
Qed.

Lemma order_by_Sorted {A : Type} (key : A -> Z) (l : list A) :
  Sorted (fun a b => (key a <= key b)%Z) (order_by key l).
Proof.
  induction l as [|x l IH]; [constructor|].
  change (order_by key (x :: l)) with (insert_by key x (order_by key l)).
  now apply insert_by_Sorted.
Qed.

(** X1: a served fetch returns the series in date order, and the series holds
    exactly the rows of the patient: every assessment (pain reading) stored
    for the patient, as often as it is stored, and none of another patient. *)
Theorem fetched_series_ordered (c : Conditions) (patientId : string) (w : World) :
  (odi_request c = Served ->
   exists odiData,
     fst (fetchODIAssessments c patientId w) = Fulfilled odiData /\
     Sorted by_date odiData /\
     Permutation odiData
       (map odi_columns
          (filter (fun r => String.eqb (odi_patient_id r) patientId)
             (odi_assessments w)))) /\
  (vas_request c = Served ->
   exists vasData,
     fst (fetchVASScores c patientId w) = Fulfilled vasData /\
     Sorted by_recorded_date vasData /\
     Permutation vasData
       (map vas_columns
          (filter (fun r => String.eqb (vas_patient_id r) patientId)
             (vas_pain_scores w)))).
Proof.
  split; intros Hserved.
  - exists (odi_series w patientId). split; [|split].
    + unfold fetchODIAssessments, bind, select_odi_assessments, respond.
      rewrite Hserved. reflexivity.
    + apply (order_by_Sorted assessment_date).
    + symmetry. apply order_by_Permutation.
  - exists (vas_series w patientId). split; [|split].
    + unfold fetchVASScores, bind, select_vas_pain_scores, respond.
      rewrite Hserved. reflexivity.
    + apply (order_by_Sorted recorded_date).
    + symmetry. apply order_by_Permutation.
Qed.

(** ** Time to MCID on the fetched series *)

Lemma calculateTimeToMCID_from_first (l : list ODIAssessment) (days : Z) :
  Sorted by_date l ->
  Forall (fun a => flagged a = false) l ->
  calculateTimeToMCID l = Some days ->
  (0 <= days)%Z.
Proof.
  intros Hs Hflags. unfold calculateTimeToMCID, find_baseline.
  destruct (length l <? 2)%nat; [discriminate|].
  assert (find flagged l = None) as ->.
  { destruct (find flagged l) as [b|] eqn:E; [|reflexivity].
    apply find_some in E. destruct E as [Hin Hb].
    rewrite Forall_forall in Hflags. rewrite (Hflags b Hin) in Hb. discriminate. }
  destruct l as [|b l]; [discriminate|]. cbn [nth_error].
  intros Hscan.
  apply Sorted_StronglySorted in Hs; [|exact by_date_trans].
  apply StronglySorted_inv in Hs. destruct Hs as [_ Hb].
  destruct (scan_for_MCID_spec b (b :: l))
    as [(before & a & after & d & E & _ & _ & Hr & _ & Hd) | [_ Hr]];
    rewrite Hscan in Hr; [|discriminate].
  injection Hr as <-. rewrite Hd.
  assert (In a (b :: l)) as Hin by (rewrite E; apply in_elt).
  destruct Hin as [<-|Hin]; [lia|].
  rewrite Forall_forall in Hb. specialize (Hb a Hin). unfold by_date in Hb. lia.
Qed.

(** X2: when no assessment stored for the patient is flagged as baseline, the
    time to MCID that [calculateAnalytics] returns is never negative. *)
Theorem calculateAnalytics_timeToMCID_nonneg (c : Conditions) (now : Z)
  (patientId : string) (w : World) (result : AnalyticsResult) (days : Z) :
  (forall r, In r (odi_assessments w) ->
             odi_patient_id r = patientId -> flagged (odi_columns r) = false) ->
  fst (calculateAnalytics c now patientId w) = Fulfilled result ->
  timeToMCID result = Some days ->
  (0 <= days)%Z.
Proof.
  intros Hflags Hcall Hdays.
  rewrite calculateAnalytics_outcome in Hcall.
  assert (timeToMCID result = calculateTimeToMCID (odi_series w patientId)) as E.
  { destruct (odi_request c), (vas_request c); try discriminate;
      injection Hcall as <-; reflexivity. }
  rewrite E in Hdays. clear E Hcall.
  apply (calculateTimeToMCID_from_first (l := odi_series w patientId)).
  - apply (order_by_Sorted assessment_date).
  - unfold odi_series. rewrite Forall_forall. intros a Ha.
    apply (Permutation_in _ (Permutation_sym (order_by_Permutation _ _))) in Ha.
    apply in_map_iff in Ha. destruct Ha as (r & <- & Hr).
    apply filter_In in Hr. destruct Hr as [Hr Hp].
    apply String.eqb_eq in Hp. now apply Hflags.
  - exact Hdays.
Qed.

Lemma calculateAnalytics_timeToMCID_nonneg_witness :
  fst (calculateAnalytics all_served 1762041600000 "p1" sample_world)
  = Fulfilled (compute_metrics 1762041600000 (odi_series sample_world "p1")
                 (vas_series sample_world "p1")) /\
  (0 <= 14)%Z.
Proof.
  split; [now rewrite calculateAnalytics_outcome|].
  apply (@calculateAnalytics_timeToMCID_nonneg all_served 1762041600000 "p1"
           sample_world
           (compute_metrics 1762041600000 (odi_series sample_world "p1")
              (vas_series sample_world "p1")) 14%Z).
  - intros r Hr Hp. simpl in Hr.
    destruct Hr as [<-|[<-|[<-|[]]]]; reflexivity.
  - rewrite calculateAnalytics_outcome. reflexivity.
  - reflexivity.
Defined.

Lemma scan_for_MCID_app (b : ODIAssessment) (l extra : list ODIAssessment) (days : Z) :
  scan_for_MCID b l = Some days -> scan_for_MCID b (l ++ extra) = Some days.
Proof.
  induction l as [|x l IH]; simpl; [discriminate|].
  destruct (Qle_bool ODI_MCID_THRESHOLD (improvement b x)); auto.
Qed.

(** X3: once the threshold has been reached, assessments added after the
    series that are not flagged as baseline leave the time to MCID as it is. *)
Theorem calculateTimeToMCID_stable (l extra : list ODIAssessment) (days : Z) :
  calculateTimeToMCID l = Some days ->
  Forall (fun a => flagged a = false) extra ->
  calculateTimeToMCID (l ++ extra) = Some days.
Proof.
  unfold calculateTimeToMCID, find_baseline. intros Hl Hextra.
  destruct (length l <? 2)%nat eqn:Hlen; [discriminate|].
  apply Nat.ltb_ge in Hlen.
  assert ((length (l ++ extra) <? 2)%nat = false) as ->.
  { apply Nat.ltb_ge. rewrite length_app. lia. }
  assert (find flagged extra = None) as Hnone.
  { destruct (find flagged extra) as [b|] eqn:E; [|reflexivity].
    apply find_some in E. destruct E as [Hin Hb].
    rewrite Forall_forall in Hextra. rewrite (Hextra b Hin) in Hb. discriminate. }
  assert (find flagged (l ++ extra) = find flagged l) as ->.
  { clear Hl Hlen. induction l as [|x l IH]; simpl; [exact Hnone|].
    destruct (flagged x); auto. }
  destruct (find flagged l) as [b|].
  - now apply scan_for_MCID_app.
  - destruct l as [|x l]; [simpl in Hlen; lia|].
    change (nth_error ((x :: l) ++ extra) 0) with (Some x).
    cbn [nth_error] in Hl. now apply scan_for_MCID_app.
Qed.

Lemma calculateTimeToMCID_stable_witness :
  calculateTimeToMCID
    ([assessment 0 70 None; assessment 21 58 None] ++ [assessment 28 30 None])
  = Some 21%Z.
Proof.
  apply (@calculateTimeToMCID_stable
           [assessment 0 70 None; assessment 21 58 None] [assessment 28 30 None]).
  - reflexivity.
  - repeat constructor.
Defined.

(** ** The window of the last four assessments *)

Lemma slice_last_idempotent {A : Type} (k : nat) (l : list A) :
  slice_last k (slice_last k l) = slice_last k l.
Proof.
  apply slice_last_short. unfold slice_last. rewrite length_skipn. lia.
Qed.

Lemma slice_last_length {A : Type} (k : nat) (l : list A) :
  length (slice_last k l) = Nat.min k (length l).
Proof. unfold slice_last. rewrite length_skipn. lia. Qed.

(** X4: the trajectory slope and the plateau flag depend on the last four
    assessments only: earlier history never changes them. *)
Theorem recent_window_only (before recent : list ODIAssessment) :
  length recent = 4%nat ->
  calculateTrajectorySlope (before ++ recent) = calculateTrajectorySlope recent /\
  detectPlateau (before ++ recent) = detectPlateau recent.
Proof.
  intros Hlen. unfold calculateTrajectorySlope, detectPlateau.
  rewrite slice_last_app by exact Hlen.
  rewrite (@slice_last_short _ 4%nat recent) by lia.
  rewrite length_app, Hlen.
  replace (length before + 4 <? 2)%nat with false
    by (symmetry; apply Nat.ltb_ge; lia).
  replace (length before + 4 <? 4)%nat with false
    by (symmetry; apply Nat.ltb_ge; lia).
  split; reflexivity.
Qed.

Lemma recent_window_only_witness :
  calculateTrajectorySlope
    ([assessment 0 90 None; assessment 7 10 None]
       ++ [assessment 14 50 None; assessment 21 48 None;
           assessment 28 47 None; assessment 35 46 None])
  = calculateTrajectorySlope
      [assessment 14 50 None; assessment 21 48 None;
       assessment 28 47 None; assessment 35 46 None] /\
  detectPlateau
    ([assessment 0 90 None; assessment 7 10 None]
       ++ [assessment 14 50 None; assessment 21 48 None;
           assessment 28 47 None; assessment 35 46 None])
  = detectPlateau
      [assessment 14 50 None; assessment 21 48 None;
       assessment 28 47 None; assessment 35 46 None].
Proof.
  apply (@recent_window_only [assessment 0 90 None; assessment 7 10 None]).
  reflexivity.
Defined.

Lemma js_slope_finite_nonzero (s k w : Q) :
  ~ (w == 0)%Q -> js_div (js_mul (Fin s) (Fin k)) (Fin w) = Fin (s * k / w)%Q.
Proof.
  intros Hw. cbn [js_mul c_mul Q_Carrier]. now apply js_div_Fin_nonzero.
Qed.

Lemma weeks_between_nonzero (first last : ODIAssessment) :
  assessment_date first <> assessment_date last ->
  ~ (weeks_between first last == 0)%Q.
Proof.
  unfold weeks_between, getTime. intros Hne E.
  rewrite <- Z.mul_sub_distr_r in E.
  set (d := (assessment_date last - assessment_date first)%Z) in *.
  assert (inject_Z (d * msPerDay) / inject_Z msPerDay / 7 == inject_Z d * (1 # 7))%Q
    as E'.
  { rewrite inject_Z_mult. field. intros H. vm_compute in H. discriminate. }
  rewrite E' in E.
  assert (inject_Z d == 0)%Q as Ed by Lqa.lra.
  unfold Qeq, inject_Z in Ed. simpl in Ed. lia.
Qed.

(** X5: on scores that change by the same amount from each assessment of the
    window to the next, the slope per week is the whole change of score over
    the window divided by the weeks it spans (for two assessments: their
    difference over the weeks between them). *)
Theorem calculateTrajectorySlope_linear (assessments : list ODIAssessment) (k : Q)
  (first last : ODIAssessment) :
  (2 <= length assessments)%nat ->
  Sorted (step k) (slice_last 4 assessments) ->
  nth_error (slice_last 4 assessments) 0 = Some first ->
  nth_error (slice_last 4 assessments) (length (slice_last 4 assessments) - 1)
  = Some last ->
  assessment_date first <> assessment_date last ->
  exists q,
    calculateTrajectorySlope assessments = Some (Fin q) /\
    (q == (percentage_score last - percentage_score first)
          / weeks_between first last)%Q.
Proof.
  intros Hlen Hstep Hfirst Hlast Hdates.
  pose proof (weeks_between_nonzero Hdates) as Hw.
  destruct (series_shape assessments Hlen)
    as [(a & b & ->) | [(a & b & c & ->) | (before & a & b & c & e & ->)]].
  - rewrite slice_last_short in * by (simpl; lia).
    injection Hfirst as <-. injection Hlast as <-.
    destruct (slope_of_two a b) as (s & -> & Hs).
    rewrite js_slope_finite_nonzero by exact Hw.
    eexists. split; [reflexivity|]. rewrite Hs. field. exact Hw.
  - rewrite slice_last_short in * by (simpl; lia).
    injection Hfirst as <-. injection Hlast as <-.
    destruct (slope_of_three a b c) as (s & -> & Hs).
    rewrite js_slope_finite_nonzero by exact Hw.
    eexists. split; [reflexivity|]. rewrite Hs. field. exact Hw.
  - rewrite slice_last_app in * by reflexivity.
    injection Hfirst as <-. injection Hlast as <-.
    rewrite calculateTrajectorySlope_window.
    destruct (slope_of_four a b c e) as (s & -> & Hs).
    rewrite js_slope_finite_nonzero by exact Hw.
    eexists. split; [reflexivity|]. rewrite Hs.
    inversion Hstep as [|? ? Hs1 Hhd1]; subst. inversion Hhd1 as [|? ? Hab]; subst.
    inversion Hs1 as [|? ? Hs2 Hhd2]; subst. inversion Hhd2 as [|? ? Hbc]; subst.
    inversion Hs2 as [|? ? _ Hhd3]; subst. inversion Hhd3 as [|? ? Hce]; subst.
    unfold step in *. rewrite Hce, Hbc, Hab. field. exact Hw.
Qed.

Lemma calculateTrajectorySlope_linear_witness :
  exists q,
    calculateTrajectorySlope
      [assessment 0 68 None; assessment 7 60 None; assessment 14 52 None;
       assessment 21 44 None; assessment 28 36 None]
    = Some (Fin q) /\
    (q == (percentage_score (assessment 28 36 None)
           - percentage_score (assessment 7 60 None))
          / weeks_between (assessment 7 60 None) (assessment 28 36 None))%Q.
Proof.
  apply (@calculateTrajectorySlope_linear
           [assessment 0 68 None; assessment 7 60 None; assessment 14 52 None;
            assessment 21 44 None; assessment 28 36 None] (-8)).
  - simpl. lia.
  - repeat constructor.
  - reflexivity.
  - reflexivity.
  - simpl. lia.
Defined.

(** X6: when a plateau is detected, the score of the last assessment is less
    than 15 points away from the score three assessments earlier. *)
Theorem detectPlateau_bounded_change (assessments : list ODIAssessment) :
  detectPlateau assessments = true ->
  exists before a b c d,
    assessments = before ++ [a; b; c; d] /\
    (Qabs (percentage_score d - percentage_score a) < 15)%Q.
Proof.
  unfold detectPlateau.
  destruct (length assessments <? 4)%nat eqn:Hlen; [discriminate|].
  apply Nat.ltb_ge in Hlen.
  destruct (@slice_last_split _ 4%nat assessments Hlen) as (before & E & Hw).
  destruct (slice_last 4 assessments) as [|a [|b [|c [|d [|? ?]]]]];
    try discriminate.
  cbn [adjacent_changes forallb].
  rewrite !andb_true_iff, !small_change_iff. intros (H1 & H2 & H3 & _).
  exists before, a, b, c, d. split; [exact E|].
  pose proof (Qabs_triangle (percentage_score b - percentage_score a)
                (percentage_score c - percentage_score b)) as T1.
  pose proof (Qabs_triangle
                ((percentage_score b - percentage_score a)
                 + (percentage_score c - percentage_score b))
                (percentage_score d - percentage_score c)) as T2.
  assert (percentage_score d - percentage_score a
          == (percentage_score b - percentage_score a)
             + (percentage_score c - percentage_score b)
             + (percentage_score d - percentage_score c))%Q as Esum by ring.
  rewrite Esum. Lqa.lra.
Qed.

Lemma detectPlateau_bounded_change_witness :
  exists before a b c d,
    [assessment 0 50 None; assessment 7 46 None;
     assessment 14 42 None; assessment 21 38 None] = before ++ [a; b; c; d] /\
    (Qabs (percentage_score d - percentage_score a) < 15)%Q.
Proof.
  apply (@detectPlateau_bounded_change
           [assessment 0 50 None; assessment 7 46 None;
            assessment 14 42 None; assessment 21 38 None]).
  reflexivity.
Defined.

(** ** The nearest pain reading *)

Lemma fold_left_closer_first (t : Z) (rest pre mid : list VASScore) (x : VASScore) :
  Forall (fun v => (time_distance t x < time_distance t v)%Z) pre ->
  Forall (fun v => (time_distance t x <= time_distance t v)%Z) mid ->
  exists before after,
    pre ++ x :: mid ++ rest = before ++ fold_left (closer t) rest x :: after /\
    Forall (fun v => (time_distance t (fold_left (closer t) rest x)
                      < time_distance t v)%Z) before /\
    Forall (fun v => (time_distance t (fold_left (closer t) rest x)
                      <= time_distance t v)%Z) after.
Proof.
  revert pre mid x. induction rest as [|y rest IH]; intros pre mid x Hpre Hmid.
  - exists pre, mid. rewrite app_nil_r. auto.
  - cbn [fold_left].
    assert ((closer t x y = y /\ (time_distance t y < time_distance t x)%Z) \/
            (closer t x y = x /\ (time_distance t x <= time_distance t y)%Z)) as Hc.
    { unfold closer, time_distance.
      destruct (Z.ltb_spec (Z.abs (getTime (recorded_date y) - t))
                           (Z.abs (getTime (recorded_date x) - t))); auto. }
    destruct Hc as [[-> Hlt] | [-> Hge]].
    + destruct (IH (pre ++ x :: mid) [] y) as (before & after & E & Hb & Ha).
      * apply Forall_app. split.
        -- eapply Forall_impl; [|exact Hpre]. simpl. intros; lia.
        -- constructor; [exact Hlt|].
           eapply Forall_impl; [|exact Hmid]. simpl. intros; lia.
      * constructor.
      * exists before, after. split; [|split; assumption].
        rewrite <- E. rewrite <- !app_assoc. reflexivity.
    + destruct (IH pre (mid ++ [y]) x) as (before & after & E & Hb & Ha).
      * exact Hpre.
      * apply Forall_app. split; [exact Hmid|]. constructor; [lia|constructor].
      * exists before, after. split; [|split; assumption].
        rewrite <- E. rewrite <- !app_assoc. reflexivity.
Qed.

(** X7: among pain readings at the same least distance in time from an
    assessment, the one that comes first in the series is taken: every
    reading before the chosen one is strictly farther, every reading after it
    at least as far. *)
Theorem closest_reading_is_first (vasScores : list VASScore) (o : ODIAssessment)
  (closestVAS : VASScore) :
  reduce (closer (getTime (assessment_date o))) vasScores = Some closestVAS ->
  exists before after,
    vasScores = before ++ closestVAS :: after /\
    Forall (fun v => (day_gap o closestVAS < day_gap o v)%Z) before /\
    Forall (fun v => (day_gap o closestVAS <= day_gap o v)%Z) after.
Proof.
  destruct vasScores as [|x rest]; [discriminate|]. simpl. intros [= <-].
  destruct (@fold_left_closer_first (getTime (assessment_date o)) rest [] [] x)
    as (before & after & E & Hb & Ha); try constructor.
  exists before, after. split; [exact E|].
  unfold time_distance in *. pose proof msPerDay_pos.
  split; (eapply Forall_impl; [|eassumption]); simpl; intros v Hv;
    rewrite !time_gap_days in Hv; nia.
Qed.

Lemma closest_reading_is_first_witness :
  exists before after,
    [reading 3 5; reading 6 2; reading 8 9; reading 12 4]
    = before ++ reading 6 2 :: after /\
    Forall (fun v => (day_gap (assessment 7 40 None) (reading 6 2)
                      < day_gap (assessment 7 40 None) v)%Z) before /\
    Forall (fun v => (day_gap (assessment 7 40 None) (reading 6 2)
                      <= day_gap (assessment 7 40 None) v)%Z) after.
Proof.
  apply (@closest_reading_is_first
           [reading 3 5; reading 6 2; reading 8 9; reading 12 4]
           (assessment 7 40 None) (reading 6 2)).
  reflexivity.
Defined.

(** ** Weeks since baseline *)

(** X8: for a series with at least one assessment, a week later the weeks
    since baseline are one more, and they never decrease as time passes. *)
Theorem calculateWeeksSinceBaseline_advances (now : Z) (assessments : list ODIAssessment) :
  assessments <> [] ->
  calculateWeeksSinceBaseline (now + msPerWeek) assessments
  = (calculateWeeksSinceBaseline now assessments + 1)%Z /\
  forall later_now,
    (now <= later_now)%Z ->
    (calculateWeeksSinceBaseline now assessments
     <= calculateWeeksSinceBaseline later_now assessments)%Z.
Proof.
  intros Hne. unfold calculateWeeksSinceBaseline, Math_floor_div.
  destruct assessments as [|x l]; [contradiction|]. cbn [length Nat.eqb].
  destruct (find_baseline_nonempty (l := x :: l)) as [b ->]; [discriminate|].
  split.
  - replace (now + msPerWeek - getTime (assessment_date b))%Z
      with (now - getTime (assessment_date b) + 1 * msPerWeek)%Z by ring.
    rewrite Z.div_add by (pose proof msPerWeek_pos; lia). reflexivity.
  - intros later_now Hle. apply Z.div_le_mono; [exact msPerWeek_pos | lia].
Qed.

Lemma calculateWeeksSinceBaseline_advances_witness :
  calculateWeeksSinceBaseline (1762041600000 + msPerWeek) [assessment 20380 40 None]
  = (calculateWeeksSinceBaseline 1762041600000 [assessment 20380 40 None] + 1)%Z /\
  forall later_now,
    (1762041600000 <= later_now)%Z ->
    (calculateWeeksSinceBaseline 1762041600000 [assessment 20380 40 None]
     <= calculateWeeksSinceBaseline later_now [assessment 20380 40 None])%Z.
Proof.
  apply (@calculateWeeksSinceBaseline_advances 1762041600000
           [assessment 20380 40 None]).
  discriminate.
Defined.

(** ** Correlation of linearly related series *)

Lemma total_affine (a b : Q) (pairs : list MatchedPair) :
  Forall (fun p => (vas p == a * odi p + b)%Q) pairs ->
  (total vas pairs == a * total odi pairs + pair_count pairs * b)%Q /\
  (total (fun p => odi p * vas p) pairs
   == a * total (fun p => odi p * odi p) pairs + b * total odi pairs)%Q /\
  (total (fun p => vas p * vas p) pairs
   == a * a * total (fun p => odi p * odi p) pairs
      + 2 * a * b * total odi pairs + pair_count pairs * (b * b))%Q.
Proof.
  induction 1 as [|p pairs Hp _ (IH1 & IH2 & IH3)].
  - unfold total, pair_count. simpl. repeat split; ring.
  - rewrite !total_cons, pair_count_cons, IH1, IH2, IH3, Hp.
    repeat split; ring.
Qed.

Lemma unit_ratio (x : R) :
  (x <> 0 -> x / sqrt (x * x) = if Rlt_dec 0 x then 1 else -1)%R.
Proof.
  intros Hx. change (x * x)%R with (Rsqr x). rewrite sqrt_Rsqr_abs.
  destruct (Rlt_dec 0 x) as [Hpos|Hneg].
  - rewrite Rabs_right by Lra.lra. now field.
  - rewrite Rabs_left by Lra.lra. now field.
Qed.

(** X9: when the matched pain values are a linear function of the matched
    scores, and the scores are not all equal, the correlation is exactly 1
    for a rising line and exactly -1 for a falling one. *)
Theorem correlation_of_linear_pairs
  (odiAssessments : list ODIAssessment) (vasScores : list VASScore) (a b : Q) :
  (3 <= length odiAssessments)%nat ->
  (3 <= length vasScores)%nat ->
  (3 <= length (match_pairs odiAssessments vasScores))%nat ->
  Forall (fun p => (vas p == a * odi p + b)%Q) (match_pairs odiAssessments vasScores) ->
  ~ (variance_term odi (match_pairs odiAssessments vasScores) == 0)%Q ->
  ((0 < a)%Q ->
   calculatePainFunctionCorrelation odiAssessments vasScores = Some (Fin 1%R)) /\
  ((a < 0)%Q ->
   calculatePainFunctionCorrelation odiAssessments vasScores = Some (Fin (-1)%R)).
Proof.
  intros H1 H2 H3 Hline Hvar.
  unfold calculatePainFunctionCorrelation.
  set (pairs := match_pairs odiAssessments vasScores) in *.
  apply Nat.ltb_ge in H1, H2, H3. rewrite H1, H2, H3. cbn [orb].
  destruct (total_affine Hline) as (T1 & T2 & T3).
  set (V := variance_term odi pairs) in *.
  assert (covariance_term pairs == a * V)%Q as Ecov.
  { unfold covariance_term, V, variance_term. rewrite T1, T2. ring. }
  assert (variance_term vas pairs == a * a * V)%Q as Evar.
  { unfold V, variance_term. rewrite T1, T3. ring. }
  assert (0 < V)%Q as Vpos.
  { pose proof (variance_term_nonneg odi pairs) as Hge. fold V in Hge.
    apply Qle_lteq in Hge. destruct Hge as [Hlt|Heq]; [exact Hlt|].
    elim Hvar. now symmetry. }
  assert (forall x : R, (x <> 0)%R -> x = Q2R (a * V) ->
            js_div (Fin (Q2R (numerator pairs))) (Math_sqrt (radicand pairs))
            = Fin (if Rlt_dec 0 x then 1 else -1)%R) as Hvalue.
  { intros x Hx Ex.
    assert (~ (radicand pairs == 0)%Q) as Hnz.
    { rewrite radicand_variances. fold V. rewrite Evar. intros E.
      apply Hx. rewrite Ex.
      assert (a * V * (a * V) == 0)%Q as E' by (rewrite <- E; ring).
      apply Qeq_eqR in E'. rewrite Q2R_mult, Q2R_zero in E'.
      destruct (Rmult_integral _ _ E'); assumption. }
    destruct (correlation_value Hnz) as [-> _]. f_equal.
    unfold pearson. fold V.
    rewrite (Qeq_eqR _ _ Ecov), <- Ex.
    assert (V * variance_term vas pairs == a * V * (a * V))%Q as E
      by (rewrite Evar; ring).
    rewrite (Qeq_eqR _ _ E), Q2R_mult, <- Ex. now apply unit_ratio. }
  assert (forall x : R, x = Q2R (a * V) -> (x <> 0)%R ->
            strict_eq_zero (Math_sqrt (radicand pairs)) = false) as Hguard.
  { intros x Ex Hx. rewrite Math_sqrt_zero.
    destruct (Qeq_bool (radicand pairs) 0) eqn:E; [|reflexivity].
    apply Qeq_bool_iff in E. rewrite radicand_variances in E. fold V in E.
    rewrite Evar in E.
    assert (a * V * (a * V) == 0)%Q as E' by (rewrite <- E; ring).
    apply Qeq_eqR in E'. rewrite Q2R_mult, Q2R_zero, <- Ex in E'.
    destruct (Rmult_integral _ _ E'); contradiction. }
  split; intros Ha.
  - assert (0 < Q2R (a * V))%R as Hx.
    { rewrite <- Q2R_zero. apply Qlt_Rlt.
      setoid_replace 0%Q with (0 * V)%Q by ring.
      apply Qmult_lt_compat_r; assumption. }
    pose proof (Rgt_not_eq _ _ Hx) as Hne.
    rewrite (Hguard _ eq_refl Hne), (Hvalue _ Hne eq_refl).
    destruct (Rlt_dec 0 (Q2R (a * V))); [reflexivity | contradiction].
  - assert (Q2R (a * V) < 0)%R as Hx.
    { rewrite <- Q2R_zero. apply Qlt_Rlt.
      setoid_replace 0%Q with (0 * V)%Q by ring.
      apply Qmult_lt_compat_r; assumption. }
    pose proof (Rlt_not_eq _ _ Hx) as Hne.
    rewrite (Hguard _ eq_refl Hne), (Hvalue _ Hne eq_refl).
    destruct (Rlt_dec 0 (Q2R (a * V))) as [Hpos|_]; [|reflexivity].
    elim (Rlt_irrefl _ (Rlt_trans _ _ _ Hpos Hx)).
Qed.

Lemma correlation_of_linear_pairs_witness :
  ((0 < 1)%Q ->
   calculatePainFunctionCorrelation
     [assessment 0 10 None; assessment 7 20 None; assessment 14 30 None]
     [reading 0 1; reading 7 2; reading 14 3] = Some (Fin 1%R)) /\
  ((1 < 0)%Q ->
   calculatePainFunctionCorrelation
     [assessment 0 10 None; assessment 7 20 None; assessment 14 30 None]
     [reading 0 1; reading 7 2; reading 14 3] = Some (Fin (-1)%R)).
Proof.
  apply (@correlation_of_linear_pairs
           [assessment 0 10 None; assessment 7 20 None; assessment 14 30 None]
           [reading 0 1; reading 7 2; reading 14 3] 1 0).
  - simpl. lia.
  - simpl. lia.
  - vm_compute. lia.
  - vm_compute. repeat constructor.
  - intros H. vm_compute in H. discriminate.
Defined.

(** ** The stored snapshot *)

Lemma snapshot_of_upsert (row : MetricsRow) (table : list MetricsRow) :
  snapshot_of (upsert row table) (patient_id row) (metric_date row) = Some row.
Proof.
  unfold snapshot_of. induction table as [|r table IH]; simpl.
  - now rewrite String.eqb_refl, Z.eqb_refl.
  - destruct (String.eqb (patient_id r) (patient_id row)
              && (metric_date r =? metric_date row)%Z)%bool eqn:E; simpl.
    + now rewrite String.eqb_refl, Z.eqb_refl.
    + rewrite E. exact IH.
Qed.

Lemma snapshot_of_upsert_other (row : MetricsRow) (table : list MetricsRow)
  (patientId : string) (day : date) :
  (patient_id row, metric_date row) <> (patientId, day) ->
  snapshot_of (upsert row table) patientId day = snapshot_of table patientId day.
Proof.
  intros Hkey. unfold snapshot_of.
  assert ((String.eqb (patient_id row) patientId
           && (metric_date row =? day)%Z)%bool = false) as Hrow.
  { apply andb_false_iff.
    destruct (String.eqb_spec (patient_id row) patientId) as [Ep|]; [|now left].
    right. apply Z.eqb_neq. intros Ed. apply Hkey. now rewrite Ep, Ed. }
  induction table as [|r table IH]; simpl.
  - now rewrite Hrow.
  - destruct (String.eqb (patient_id r) (patient_id row)
              && (metric_date r =? metric_date row)%Z)%bool eqn:E; simpl.
    + rewrite Hrow.
      apply andb_true_iff in E. destruct E as [Ep Ed].
      apply String.eqb_eq in Ep. apply Z.eqb_eq in Ed. rewrite Ep, Ed, Hrow.
      reflexivity.
    + rewrite IH. reflexivity.
Qed.

Lemma upsert_idempotent (row : MetricsRow) (table : list MetricsRow) :
  upsert row (upsert row table) = upsert row table.
Proof.
  induction table as [|r table IH]; simpl.
  - now rewrite String.eqb_refl, Z.eqb_refl.
  - destruct (String.eqb (patient_id r) (patient_id row)
              && (metric_date r =? metric_date row)%Z)%bool eqn:E; simpl.
    + now rewrite String.eqb_refl, Z.eqb_refl.
    + rewrite E, IH. reflexivity.
Qed.

(** X10: [saveAnalytics] never fails its caller.  A served write stores the
    snapshot under (patient, today), a slope or correlation that is not a
    finite number being stored as null, and logs nothing; a rejected write
    leaves the tables as they were and logs the error; an error answer to the
    write is not even logged: the world is left exactly as it was. *)
Theorem saveAnalytics_outcomes (c : Conditions) (now : Z) (patientId : string)
  (a : AnalyticsResult) (w : World) :
  let w' := snd (saveAnalytics c now patientId a w) in
  fst (saveAnalytics c now patientId a w) = Fulfilled tt /\
  match metrics_request c with
  | Served =>
      analytics_metrics w'
      = upsert (as_sent (snapshot_row now patientId a)) (analytics_metrics w) /\
      (exists row,
          snapshot_of (analytics_metrics w') patientId (today now) = Some row /\
          time_to_mcid_days row = timeToMCID a /\
          current_trajectory_slope row = JSON_number (trajectorySlope a) /\
          pain_function_correlation row = JSON_number (painFunctionCorrelation a) /\
          weeks_since_baseline row = weeksSinceBaseline a /\
          plateau_detected row = plateauDetected a) /\
      console w' = console w
  | ErrorResponse _ => w' = w
  | Rejection reason =>
      analytics_metrics w' = analytics_metrics w /\
      console w' = (console w ++ [("Error saving analytics: " ++ reason)%string])%list
  end.
Proof.
  unfold saveAnalytics, try_catch, bind, upsert_analytics_metrics, respond, ret,
    throw, console_error.
  destruct (metrics_request c); cbn -[append today as_sent]; repeat split.
  exists (as_sent (snapshot_row now patientId a)). split; [|repeat split].
  apply (snapshot_of_upsert (as_sent (snapshot_row now patientId a))).
Qed.

Lemma calculateAnalytics_metrics_table (c : Conditions) (now : Z)
  (patientId : string) (w : World) :
  analytics_metrics (snd (calculateAnalytics c now patientId w))
  = match fst (calculateAnalytics c now patientId w), metrics_request c with
    | Fulfilled result, Served =>
        upsert (as_sent (snapshot_row now patientId result)) (analytics_metrics w)
    | _, _ => analytics_metrics w
    end.
Proof.
  unfold calculateAnalytics, bind, Promise_all, fetchODIAssessments, fetchVASScores,
    saveAnalytics, try_catch, upsert_analytics_metrics, bind,
    select_odi_assessments, select_vas_pain_scores, respond, ret, throw,
    console_error.
  destruct (odi_request c), (vas_request c), (metrics_request c); reflexivity.
Qed.

Lemma calculatePainFunctionCorrelation_finite
  (odiAssessments : list ODIAssessment) (vasScores : list VASScore) :
  JSON_number (calculatePainFunctionCorrelation odiAssessments vasScores)
  = calculatePainFunctionCorrelation odiAssessments vasScores.
Proof.
  unfold calculatePainFunctionCorrelation.
  destruct (_ || _)%bool; [reflexivity|].
  destruct (length _ <? 3)%nat; [reflexivity|].
  rewrite Math_sqrt_zero.
  destruct (Qeq_bool (radicand _) 0) eqn:E; [reflexivity|].
  assert (~ (radicand (match_pairs odiAssessments vasScores) == 0)%Q) as Hnz.
  { intros H. apply Qeq_bool_iff in H. congruence. }
  destruct (correlation_value Hnz) as [-> _]. reflexivity.
Qed.

(** X11: after a call whose fetches and write are served, the snapshot stored
    for the patient and the day of the call holds the returned time to MCID,
    correlation, weeks and plateau flag, and the returned slope when that is
    null or a finite number; a slope of Infinity, -Infinity or NaN is stored
    as null.  The snapshots of other patients and days are as they were. *)
Theorem calculateAnalytics_stores_result (c : Conditions) (now : Z)
  (patientId : string) (w : World) (result : AnalyticsResult) :
  metrics_request c = Served ->
  fst (calculateAnalytics c now patientId w) = Fulfilled result ->
  let table := analytics_metrics (snd (calculateAnalytics c now patientId w)) in
  (exists row,
      snapshot_of table patientId (today now) = Some row /\
      time_to_mcid_days row = timeToMCID result /\
      pain_function_correlation row = painFunctionCorrelation result /\
      weeks_since_baseline row = weeksSinceBaseline result /\
      plateau_detected row = plateauDetected result /\
      current_trajectory_slope row
      = match trajectorySlope result with
        | Some (Fin q) => Some (Fin q)
        | Some _ => None
        | None => None
        end) /\
  forall other day,
    (other, day) <> (patientId, today now) ->
    snapshot_of table other day = snapshot_of (analytics_metrics w) other day.
Proof.
  intros Hserved Hresult. cbv zeta.
  rewrite calculateAnalytics_metrics_table, Hresult, Hserved. split.
  - exists (as_sent (snapshot_row now patientId result)).
    split; [apply (snapshot_of_upsert (as_sent (snapshot_row now patientId result)))|].
    cbn [as_sent snapshot_row time_to_mcid_days pain_function_correlation
         weeks_since_baseline plateau_detected current_trajectory_slope].
    repeat split.
    rewrite calculateAnalytics_outcome in Hresult.
    assert (exists odiData vasData,
               painFunctionCorrelation result
               = calculatePainFunctionCorrelation odiData vasData)
      as (odiData & vasData & ->).
    { destruct (odi_request c), (vas_request c); try discriminate;
        injection Hresult as <-; eexists; eexists; reflexivity. }
    apply calculatePainFunctionCorrelation_finite.
  - intros other day Hkey.
    apply (snapshot_of_upsert_other (as_sent (snapshot_row now patientId result))).
    intros E. apply Hkey. now symmetry.
Qed.

Lemma calculateAnalytics_stores_result_witness :
  let table :=
    analytics_metrics
      (snd (calculateAnalytics all_served 1762041600000 "p1" sample_world)) in
  let result :=
    compute_metrics 1762041600000 (odi_series sample_world "p1")
      (vas_series sample_world "p1") in
  (exists row,
      snapshot_of table "p1" (today 1762041600000) = Some row /\
      time_to_mcid_days row = timeToMCID result /\
      pain_function_correlation row = painFunctionCorrelation result /\
      weeks_since_baseline row = weeksSinceBaseline result /\
      plateau_detected row = plateauDetected result /\
      current_trajectory_slope row
      = match trajectorySlope result with
        | Some (Fin q) => Some (Fin q)
        | Some _ => None
        | None => None
        end) /\
  forall other day,
    (other, day) <> ("p1"%string, today 1762041600000) ->
    snapshot_of table other day
    = snapshot_of (analytics_metrics sample_world) other day.
Proof.
  apply (@calculateAnalytics_stores_result all_served 1762041600000 "p1"
           sample_world).
  - reflexivity.
  - now rewrite calculateAnalytics_outcome.
Defined.

(** Two assessments taken on one day: the call returns a slope of -Infinity
    and the snapshot it stores has no slope. *)
Example same_day_slope_stored_as_null :
  let w :=
    {| odi_assessments :=
         [ {| odi_patient_id := "p3"; odi_columns := assessment 20394 50 None |};
           {| odi_patient_id := "p3"; odi_columns := assessment 20394 40 None |} ];
       vas_pain_scores := [];
       analytics_metrics := [];
       population_benchmarks := [];
       console := [] |} in
  option_map current_trajectory_slope
    (snapshot_of
       (analytics_metrics (snd (calculateAnalytics all_served 1762041600000 "p3" w)))
       "p3" (today 1762041600000))
  = Some None /\
  trajectorySlope (compute_metrics 1762041600000 (odi_series w "p3") (vas_series w "p3"))
  = Some NegInfinity.
Proof. split; reflexivity. Qed.

(** X12: a second call at the same clock reading, under the same conditions,
    leaves the table of snapshots exactly as the first call left it: the
    write replaces the snapshot of the day and never adds a second one. *)
Theorem calculateAnalytics_twice (c : Conditions) (now : Z) (patientId : string)
  (w : World) :
  let w1 := snd (calculateAnalytics c now patientId w) in
  let w2 := snd (calculateAnalytics c now patientId w1) in
  analytics_metrics w2 = analytics_metrics w1.
Proof.
  cbv zeta.
  destruct (calculateAnalytics_tables c now patientId w) as [Ho Hv].
  rewrite (calculateAnalytics_metrics_table c now patientId
             (snd (calculateAnalytics c now patientId w))).
  rewrite (calculateAnalytics_outcome c now patientId
             (snd (calculateAnalytics c now patientId w))).
  rewrite (odi_series_ext _ w patientId Ho), (vas_series_ext _ w patientId Hv).
  rewrite <- calculateAnalytics_outcome.
  rewrite calculateAnalytics_metrics_table.
  destruct (fst (calculateAnalytics c now patientId w)) as [result|];
    destruct (metrics_request c); try reflexivity.
  apply upsert_idempotent.
Qed.

(** ** Benchmark comparison: bands and side effects *)

Lemma getBenchmarkComparison_run (c : Conditions) (score : Q)
  (treatmentType : TreatmentType) (weeks : Z) (w : World) :
  getBenchmarkComparison c score treatmentType weeks w
  = match benchmarks_request c with
    | Served =>
        match hd_error
                (order_by (fun r => (- weeks_post_treatment r)%Z)
                   (matching_benchmarks treatmentType weeks
                      (population_benchmarks w))) with
        | Some row =>
            (Fulfilled (Some {| mean := mean_odi_score row;
                                percentile := percentile_band score row;
                                interpretation :=
                                  interpret (percentile_band score row) |}), w)
        | None =>
            (Fulfilled None, snd (console_error "Error fetching benchmarks:" w))
        end
    | ErrorResponse _ =>
        (Fulfilled None, snd (console_error "Error fetching benchmarks:" w))
    | Rejection reason => (Rejected reason, w)
    end.
Proof.
  unfold getBenchmarkComparison, select_population_benchmark, bind, respond, ret,
    throw, console_error.
  destruct (benchmarks_request c); cbn [error data]; try reflexivity.
  destruct (hd_error _); reflexivity.
Qed.

Lemma percentile_band_monotone (s1 s2 : Q) (row : BenchmarkRow) :
  (s1 <= s2)%Q -> (percentile_band s1 row <= percentile_band s2 row)%Z.
Proof.
  intros Hle. unfold percentile_band.
  assert (forall p, Qle_bool s2 p = true -> Qle_bool s1 p = true) as Hmono.
  { intros p H. apply Qle_bool_iff. apply Qle_bool_iff in H.
    now apply Qle_trans with s2. }
  destruct (Qle_bool s2 (percentile_25 row)) eqn:E1.
  { rewrite (Hmono _ E1). lia. }
  destruct (Qle_bool s2 (percentile_50 row)) eqn:E2.
  { rewrite (Hmono _ E2). destruct (Qle_bool s1 (percentile_25 row)); lia. }
  destruct (Qle_bool s2 (percentile_75 row)) eqn:E3.
  { rewrite (Hmono _ E3).
    destruct (Qle_bool s1 (percentile_25 row)), (Qle_bool s1 (percentile_50 row)); lia. }
  destruct (Qle_bool s1 (percentile_25 row)), (Qle_bool s1 (percentile_50 row)),
    (Qle_bool s1 (percentile_75 row)); lia.
Qed.

(** X13: for the same treatment type and elapsed weeks, a higher (worse)
    score never gets a lower percentile, whatever the three percentile
    columns of the row hold; the two comparisons report the same mean. *)
Theorem getBenchmarkComparison_monotone (c : Conditions) (w : World)
  (treatmentType : TreatmentType) (weeks : Z) (s1 s2 : Q)
  (r1 r2 : BenchmarkComparison) :
  (s1 <= s2)%Q ->
  fst (getBenchmarkComparison c s1 treatmentType weeks w) = Fulfilled (Some r1) ->
  fst (getBenchmarkComparison c s2 treatmentType weeks w) = Fulfilled (Some r2) ->
  (percentile r1 <= percentile r2)%Z /\ mean r1 = mean r2.
Proof.
  intros Hle. rewrite !getBenchmarkComparison_run.
  destruct (benchmarks_request c); try discriminate.
  destruct (hd_error _) as [row|]; [|discriminate].
  cbn [fst]. intros [= <-] [= <-]. cbn [percentile mean].
  split; [now apply percentile_band_monotone | reflexivity].
Qed.

Lemma getBenchmarkComparison_monotone_witness :
  (percentile {| mean := 18; percentile := 25; interpretation := "excellent" |}
   <= percentile {| mean := 18; percentile := 75; interpretation := "average" |})%Z /\
  mean {| mean := 18; percentile := 25; interpretation := "excellent" |}
  = mean {| mean := 18; percentile := 75; interpretation := "average" |}.
Proof.
  apply (@getBenchmarkComparison_monotone all_served sample_world post_surgery 30
           12 20); reflexivity || (vm_compute; discriminate).
Defined.

(** X14: the benchmark lookup writes to no table; it logs one line exactly
    when it returns null, and nothing when it returns a comparison or its
    request is rejected. *)
Theorem getBenchmarkComparison_effects (c : Conditions) (score : Q)
  (treatmentType : TreatmentType) (weeks : Z) (w : World) :
  let w' := snd (getBenchmarkComparison c score treatmentType weeks w) in
  odi_assessments w' = odi_assessments w /\
  vas_pain_scores w' = vas_pain_scores w /\
  analytics_metrics w' = analytics_metrics w /\
  population_benchmarks w' = population_benchmarks w /\
  console w'
  = match fst (getBenchmarkComparison c score treatmentType weeks w) with
    | Fulfilled None => (console w ++ ["Error fetching benchmarks:"%string])%list
    | _ => console w
    end.
Proof.
  cbv zeta. rewrite getBenchmarkComparison_run.
  destruct (benchmarks_request c); [destruct (hd_error _)| |];
    cbn; repeat split.
Qed.

(** ** The pages *)

Lemma try_catch_calculateAnalytics (c : Conditions) (now : Z) (patientId : string)
  (A : Type) (k : AnalyticsResult -> A) (fallback : A) (prefix : string) (w : World) :
  fst (try_catch
         (bind (calculateAnalytics c now patientId) (fun r => ret (k r)))
         (fun error => bind (console_error (prefix ++ error)) (fun _ => ret fallback))
         w)
  = Fulfilled match fst (calculateAnalytics c now patientId w) with
              | Fulfilled r => k r
              | Rejected _ => fallback
              end.
Proof.
  unfold try_catch, bind, ret, console_error.
  destruct (calculateAnalytics c now patientId w) as [[r|reason] w']; reflexivity.
Qed.

(** X15: [loadAnalytics] of the home page and of the progress page never
    fails: a failed call to [calculateAnalytics] leaves the analytics of the
    page as they were, and a successful one sets them to its result. *)
Theorem loadAnalytics_never_rejects (c : Conditions) (now : Z) (w : World) :
  (forall s,
      fst (HomePage.loadAnalytics c now s w)
      = Fulfilled
          match HomePage.user s with
          | Some user_id =>
              match fst (calculateAnalytics c now user_id w) with
              | Fulfilled r => HomePage.setAnalytics s r
              | Rejected _ => s
              end
          | None => s
          end) /\
  (forall s,
      fst (ProgressPage.loadAnalytics c now s w)
      = Fulfilled
          match ProgressPage.user s with
          | Some user_id =>
              match fst (calculateAnalytics c now user_id w) with
              | Fulfilled r => ProgressPage.setAnalytics s r
              | Rejected _ => s
              end
          | None => s
          end).
Proof.
  split; intros s.
  - unfold HomePage.loadAnalytics. destruct (HomePage.user s); [|reflexivity].
    apply try_catch_calculateAnalytics.
  - unfold ProgressPage.loadAnalytics. destruct (ProgressPage.user s); [|reflexivity].
    apply try_catch_calculateAnalytics.
Qed.

Lemma matching_benchmarks_negative (treatmentType : TreatmentType) (weeks : Z)
  (table : list BenchmarkRow) :
  Forall (fun r => (0 <= weeks_post_treatment r)%Z) table ->
  (weeks < 0)%Z ->
  matching_benchmarks treatmentType weeks table = [].
Proof.
  intros Hcheck Hneg. unfold matching_benchmarks.
  induction Hcheck as [|r table Hr _ IH]; simpl; [reflexivity|].
  assert ((weeks_post_treatment r <=? weeks)%Z = false) as ->
    by (apply Z.leb_gt; lia).
  rewrite andb_false_r. exact IH.
Qed.

(** X16: when the weeks since baseline are negative (a baseline dated in the
    future) and the benchmark table respects its check that weeks are not
    negative, [loadBenchmark] finds no row and leaves the page without a new
    benchmark, whatever the backend answers. *)
Theorem loadBenchmark_negative_weeks (c : Conditions) (s : ProgressPage.State)
  (a : AnalyticsResult) (w : World) :
  Forall (fun r => (0 <= weeks_post_treatment r)%Z) (population_benchmarks w) ->
  ProgressPage.analytics s = Some a ->
  (weeksSinceBaseline a < 0)%Z ->
  fst (ProgressPage.loadBenchmark c s w) = Fulfilled s.
Proof.
  intros Hcheck Ha Hneg. unfold ProgressPage.loadBenchmark.
  destruct (ProgressPage.user s); [|reflexivity].
  destruct (ProgressPage.profile s) as [p|]; [|reflexivity].
  destruct (nth_error _ _) as [latest|]; [|reflexivity].
  assert (ProgressPage.weeks_or_zero (ProgressPage.analytics s)
          = weeksSinceBaseline a) as ->.
  { rewrite Ha. unfold ProgressPage.weeks_or_zero.
    destruct (Z.eqb_spec (weeksSinceBaseline a) 0); [lia | reflexivity]. }
  unfold try_catch, bind. rewrite getBenchmarkComparison_run.
  rewrite (matching_benchmarks_negative _ Hcheck Hneg).
  destruct (benchmarks_request c); reflexivity.
Qed.

Lemma loadBenchmark_negative_weeks_witness :
  fst (ProgressPage.loadBenchmark all_served
         {| ProgressPage.user := Some "p1"%string;
            ProgressPage.profile :=
              Some {| Profile.treatment_type := Some Profile.post_surgery |};
            ProgressPage.odiAssessments := [assessment 20395 70 None];
            ProgressPage.analytics :=
              Some (compute_metrics 1762041600000 [assessment 20395 70 None] []);
            ProgressPage.benchmark := None;
            ProgressPage.timeRange := ProgressPage.three_months |}
         sample_world)
  = Fulfilled
      {| ProgressPage.user := Some "p1"%string;
         ProgressPage.profile :=
           Some {| Profile.treatment_type := Some Profile.post_surgery |};
         ProgressPage.odiAssessments := [assessment 20395 70 None];
         ProgressPage.analytics :=
           Some (compute_metrics 1762041600000 [assessment 20395 70 None] []);
         ProgressPage.benchmark := None;
         ProgressPage.timeRange := ProgressPage.three_months |}.
Proof.
  apply (@loadBenchmark_negative_weeks all_served _
           (compute_metrics 1762041600000 [assessment 20395 70 None] [])).
  - repeat constructor; discriminate.
  - reflexivity.
  - reflexivity.
Defined.

Lemma Math_ceil_div_le (x n d : Z) :
  (0 < d)%Z -> (Math_ceil_div x d <= n)%Z <-> (x <= n * d)%Z.
Proof.
  intros Hd. pose proof (Math_ceil_div_is_ceiling x Hd) as Hc.
  unfold is_ceiling in Hc. split; intros H; nia.
Qed.

(** X17: the chart of the progress page shows exactly the assessments dated
    at most the chosen number of days (7, 30, 90, 999999) before now;
    assessments dated in the future are always shown, and a longer range
    shows everything a shorter one shows. *)
Theorem getFilteredData_spec (now : Z) (s : ProgressPage.State) :
  (forall d,
      In d (ProgressPage.getFilteredData now s) <->
      In d (ProgressPage.odiAssessments s) /\
      (now - getTime (assessment_date d)
       <= ProgressPage.ranges (ProgressPage.timeRange s) * msPerDay)%Z) /\
  (forall d,
      In d (ProgressPage.odiAssessments s) ->
      (now <= getTime (assessment_date d))%Z ->
      In d (ProgressPage.getFilteredData now s)) /\
  (forall r1 r2 user profile odiAssessments analytics benchmark,
      (ProgressPage.ranges r1 <= ProgressPage.ranges r2)%Z ->
      incl
        (ProgressPage.getFilteredData now
           {| ProgressPage.user := user; ProgressPage.profile := profile;
              ProgressPage.odiAssessments := odiAssessments;
              ProgressPage.analytics := analytics;
              ProgressPage.benchmark := benchmark;
              ProgressPage.timeRange := r1 |})
        (ProgressPage.getFilteredData now
           {| ProgressPage.user := user; ProgressPage.profile := profile;
              ProgressPage.odiAssessments := odiAssessments;
              ProgressPage.analytics := analytics;
              ProgressPage.benchmark := benchmark;
              ProgressPage.timeRange := r2 |})).
Proof.
  assert (forall s' d,
             In d (ProgressPage.getFilteredData now s') <->
             In d (ProgressPage.odiAssessments s') /\
             (now - getTime (assessment_date d)
              <= ProgressPage.ranges (ProgressPage.timeRange s') * msPerDay)%Z) as Hin.
  { intros s' d. unfold ProgressPage.getFilteredData. rewrite filter_In.
    rewrite Z.leb_le, (Math_ceil_div_le _ _ msPerDay_pos). reflexivity. }
  split; [apply Hin|]. split.
  - intros d Hd Hfuture. apply Hin. split; [exact Hd|].
    assert (0 < ProgressPage.ranges (ProgressPage.timeRange s))%Z
      by (destruct (ProgressPage.timeRange s); reflexivity).
    pose proof msPerDay_pos. nia.
  - intros r1 r2 u p l a b Hr d Hd. apply Hin in Hd. apply Hin.
    cbn [ProgressPage.odiAssessments ProgressPage.timeRange] in *.
    destruct Hd as [Hd Hle]. split; [exact Hd|].
    pose proof msPerDay_pos. nia.
Qed.

(** ** Insights of the home page *)

(** X18: the insight on an excellent recovery pace is shown exactly when the
    time to MCID is not null, not 0 and under 60 days; a negative day count
    also shows it, and the cut to three insights never removes it. *)
Theorem fast_recovery_shown (getDate : date -> Z) (s : HomePage.State) :
  HomePage.shows "fast_recovery" (HomePage.generateInsights getDate s) = true <->
  exists a days,
    HomePage.analytics s = Some a /\
    timeToMCID a = Some days /\
    days <> 0%Z /\ (days < 60)%Z.
Proof.
  assert (HomePage.shows "fast_recovery" (HomePage.generateInsights getDate s)
          = match HomePage.analytics s with
            | Some a =>
                match timeToMCID a with
                | Some days => (negb (days =? 0)%Z && (days <? 60)%Z)%bool
                | None => false
                end
            | None => false
            end) as ->.
  { unfold HomePage.generateInsights, HomePage.score_insight,
      HomePage.plateau_insight, HomePage.fast_recovery_insight,
      HomePage.first_assessment_insight, HomePage.overdue_insight.
    destruct (HomePage.latestODI s) as [latest|];
      destruct (HomePage.previousODI s) as [previous|];
      repeat match goal with
             | |- context [Qle_bool ?a ?b] => destruct (Qle_bool a b)
             end;
      cbn [negb];
      destruct (HomePage.analytics s) as [a|];
      try destruct (plateauDetected a);
      try destruct (timeToMCID a) as [days|];
      try destruct (negb (days =? 0)%Z && (days <? 60)%Z)%bool;
      try destruct (7 <? HomePage.daysPostTreatment s)%Z;
      try destruct (14 <? _)%Z;
      reflexivity. }
  split.
  - destruct (HomePage.analytics s) as [a|]; [|discriminate].
    destruct (timeToMCID a) as [days|] eqn:Edays; [|discriminate].
    intros H. apply andb_true_iff in H. destruct H as [H0 H60].
    apply negb_true_iff, Z.eqb_neq in H0. apply Z.ltb_lt in H60.
    exists a, days. repeat split; auto.
  - intros (a & days & -> & -> & H0 & H60).
    apply andb_true_iff. split.
    + now apply negb_true_iff, Z.eqb_neq.
    + now apply Z.ltb_lt.
Qed.

(** X19: at most three insights are kept, in the order score change, plateau,
    recovery pace, first assessment, assessment due.  When a score insight,
    the plateau insight and the recovery pace insight are all shown, exactly
    these three are kept and the reminder that an assessment is due is
    dropped even though it is due. *)
Theorem overdue_insight_dropped (getDate : date -> Z) (s : HomePage.State)
  (latest : HomePage.LatestODI) :
  HomePage.latestODI s = Some latest ->
  (14 < HomePage.daysPostTreatment s - getDate (HomePage.latest_date latest))%Z ->
  (HomePage.shows "mcid" (HomePage.generateInsights getDate s)
   || HomePage.shows "setback" (HomePage.generateInsights getDate s))%bool = true ->
  HomePage.shows "plateau" (HomePage.generateInsights getDate s) = true ->
  HomePage.shows "fast_recovery" (HomePage.generateInsights getDate s) = true ->
  length (HomePage.generateInsights getDate s) = 3%nat /\
  HomePage.shows "overdue_assessment" (HomePage.generateInsights getDate s) = false.
Proof.
  intros Hlatest Hdue. apply Z.ltb_lt in Hdue.
  unfold HomePage.generateInsights, HomePage.score_insight, HomePage.plateau_insight,
    HomePage.fast_recovery_insight, HomePage.first_assessment_insight,
    HomePage.overdue_insight.
  rewrite Hlatest, Hdue.
  destruct (HomePage.previousODI s) as [previous|];
    repeat match goal with
           | |- context [Qle_bool ?a ?b] => destruct (Qle_bool a b)
           end;
    cbn [negb];
    destruct (HomePage.analytics s) as [a|];
    try destruct (plateauDetected a);
    try destruct (timeToMCID a) as [days|];
    try destruct (negb (days =? 0)%Z && (days <? 60)%Z)%bool;
    cbn; intros; try discriminate; split; reflexivity.
Qed.

Lemma overdue_insight_dropped_witness :
  let s :=
    {| HomePage.user := Some "p1"%string;
       HomePage.latestODI :=
         Some {| HomePage.latest_score := 40; HomePage.latest_date := 20360%Z;
                 HomePage.disability_level := "moderate" |};
       HomePage.previousODI := Some {| HomePage.previous_score := 58 |};
       HomePage.analytics :=
         Some {| timeToMCID := Some 14%Z; trajectorySlope := None;
                 painFunctionCorrelation := None; weeksSinceBaseline := 4%Z;
                 plateauDetected := true |};
       HomePage.daysPostTreatment := 60%Z |} in
  length (HomePage.generateInsights (fun _ => 29%Z) s) = 3%nat /\
  HomePage.shows "overdue_assessment" (HomePage.generateInsights (fun _ => 29%Z) s)
  = false.
Proof.
  cbv zeta.
  apply (@overdue_insight_dropped (fun _ => 29%Z) _
           {| HomePage.latest_score := 40; HomePage.latest_date := 20360%Z;
              HomePage.disability_level := "moderate" |}); reflexivity.
Defined.

(** ** When the slope is a number *)

(** X20: for two or more assessments the trajectory slope is never null, and
    it is a finite number exactly when the first and the last assessment of
    the window of the last four have different dates. *)
Theorem calculateTrajectorySlope_finite_iff (assessments : list ODIAssessment)
  (first last : ODIAssessment) :
  (2 <= length assessments)%nat ->
  nth_error (slice_last 4 assessments) 0 = Some first ->
  nth_error (slice_last 4 assessments) (length (slice_last 4 assessments) - 1)
  = Some last ->
  exists v,
    calculateTrajectorySlope assessments = Some v /\
    (is_finite v = true <-> assessment_date first <> assessment_date last).
Proof.
  intros Hlen Hfirst Hlast.
  assert (forall s k,
             is_finite (js_div (js_mul (Fin s) (Fin k))
                               (Fin (weeks_between first last))) = true
             <-> assessment_date first <> assessment_date last) as Hiff.
  { intros s k. split.
    - intros Hfin Heq. cbn [js_mul c_mul Q_Carrier] in Hfin.
      rewrite js_div_Fin_zero in Hfin; [discriminate|].
      now apply weeks_between_same_date.
    - intros Hne. rewrite js_slope_finite_nonzero; [reflexivity|].
      now apply weeks_between_nonzero. }
  destruct (series_shape assessments Hlen)
    as [(a & b & ->) | [(a & b & c & ->) | (before & a & b & c & e & ->)]].
  - rewrite slice_last_short in * by (simpl; lia).
    injection Hfirst as <-. injection Hlast as <-.
    destruct (slope_of_two a b) as (s & -> & _). eexists. split; [reflexivity|].
    apply Hiff.
  - rewrite slice_last_short in * by (simpl; lia).
    injection Hfirst as <-. injection Hlast as <-.
    destruct (slope_of_three a b c) as (s & -> & _). eexists. split; [reflexivity|].
    apply Hiff.
  - rewrite slice_last_app in * by reflexivity.
    injection Hfirst as <-. injection Hlast as <-.
    rewrite calculateTrajectorySlope_window.
    destruct (slope_of_four a b c e) as (s & -> & _). eexists. split; [reflexivity|].
    apply Hiff.
Qed.

Lemma calculateTrajectorySlope_finite_iff_witness :
  exists v,
    calculateTrajectorySlope
      [assessment 0 50 None; assessment 7 45 None; assessment 7 40 None]
    = Some v /\
    (is_finite v = true <->
     assessment_date (assessment 0 50 None) <> assessment_date (assessment 7 40 None)).
Proof.
  apply (@calculateTrajectorySlope_finite_iff
           [assessment 0 50 None; assessment 7 45 None; assessment 7 40 None]).
  - simpl. lia.
  - reflexivity.
  - reflexivity.
Defined.
